(** * SwarLoop ML service: mood fusion, audio mapping and catalog ranking

    A shallow embedding of the decision logic of [ml-service/main.py]:
    [combine_emotion_sentiment], [emotion_to_mood_score],
    [audio_features_to_emotions], [get_mood_based_recommendations] and the
    dominant-emotion selection of the two analysis endpoints.

    Modelling choices.
    - A Python [float] is read as an exact rational ([Q]); the decimal
      literals of the source ([1.2], [0.5], [0.7], ...) are the rationals
      they denote.  Rounding, overflow and NaN are outside the model.
    - A Python [dict] is an association list in insertion order: the
      iteration order of a dict is observable through [max(d, key=d.get)]
      and through the stable sort of the recommender.  Keys of a dict are
      pairwise distinct ([dict_wf]).
    - A raised exception is a value of [result]. *)

From Stdlib Require Import QArith Qabs Lqa Lia List String DecimalString Permutation Sorted.
From stdpp Require Import base gmap strings.
Import ListNotations.

Local Open Scope Q_scope.
Local Open Scope string_scope.
Local Open Scope list_scope.

(** ** The fragment of the Python runtime the service relies on *)

Module Py.

(** Exceptions the modelled code can raise. *)
Inductive exn : Type :=
| ValueError
| KeyError (key : string).

Inductive result (A : Type) : Type :=
| Ok (a : A)
| Raise (e : exn).

Arguments Ok {A} a.
Arguments Raise {A} e.

Definition bind {A B : Type} (m : result A) (k : A -> result B) : result B :=
  match m with
  | Ok a => k a
  | Raise e => Raise e
  end.

(** [a > b] and [a < b] on floats. *)
Definition Qltb (a b : Q) : bool := negb (Qle_bool b a).

(** [dict]: entries in insertion order. *)
Definition dict (V : Type) : Type := list (string * V).

Definition dict_keys {V : Type} (d : dict V) : list string := List.map fst d.

Definition dict_values {V : Type} (d : dict V) : list V := List.map snd d.

Definition dict_wf {V : Type} (d : dict V) : Prop := List.NoDup (dict_keys d).

Fixpoint dict_find {V : Type} (d : dict V) (k : string) : option V :=
  match d with
  | [] => None
  | (k', v) :: d' => if String.eqb k' k then Some v else dict_find d' k
  end.

(** [d.get(k, default)] *)
Definition dict_get {V : Type} (d : dict V) (k : string) (default : V) : V :=
  match dict_find d k with
  | Some v => v
  | None => default
  end.

(** [d[k]] *)
Definition dict_getitem {V : Type} (d : dict V) (k : string) : result V :=
  match dict_find d k with
  | Some v => Ok v
  | None => Raise (KeyError k)
  end.

(** [d[k] = v]: an existing key keeps its position, a new key goes last. *)
Fixpoint dict_setitem {V : Type} (d : dict V) (k : string) (v : V) : dict V :=
  match d with
  | [] => [(k, v)]
  | (k', v') :: d' =>
      if String.eqb k' k then (k', v) :: d' else (k', v') :: dict_setitem d' k v
  end.

(** [k in d] *)
Definition dict_contains {V : Type} (d : dict V) (k : string) : bool :=
  match dict_find d k with
  | Some _ => true
  | None => false
  end.

(** [d[k] = f(d[k])], the augmented assignments [d[k] *= c] and
    [d[k] += c], for a key of [d].  (On a missing key Python raises
    [KeyError]; every use below is guarded by [k in d] or follows the
    insertion of [k].) *)
Definition dict_aug {V : Type} (d : dict V) (k : string) (f : V -> V) : dict V :=
  match dict_find d k with
  | Some v => dict_setitem d k (f v)
  | None => d
  end.

(** [{k: f(v) for k, v in d.items()}] *)
Definition dict_comp {V W : Type} (f : V -> W) (d : dict V) : dict W :=
  List.fold_left (fun acc kv => dict_setitem acc (fst kv) (f (snd kv))) d [].

(** [sum(xs)]: starts at [0] and adds from the left. *)
Definition sum (xs : list Q) : Q := List.fold_left Qplus xs 0.

(** The loop of the builtin [max(iterable, key=...)]: the running maximum
    is replaced only by a strictly greater key value, so the first
    maximal item wins. *)
Fixpoint max_loop (key : string -> Q) (best : string) (best_val : Q)
         (rest : list string) : string :=
  match rest with
  | [] => best
  | k :: rest' =>
      if Qltb best_val (key k) then max_loop key k (key k) rest'
      else max_loop key best best_val rest'
  end.

(** [max(d, key=d.get)]; [ValueError] on an empty dict.  [d.get] is only
    applied to keys of [d], so its [None] default never shows
    ([dict_find_key]). *)
Definition max_key (d : dict Q) : result string :=
  match dict_keys d with
  | [] => Raise ValueError
  | k :: rest => Ok (max_loop (fun x => dict_get d x 0) k (dict_get d k 0) rest)
  end.

(** [max(a, b)] and [min(a, b)] on two numbers: the first argument is
    returned unless the second is strictly greater (smaller). *)
Definition max2 (a b : Q) : Q := if Qltb a b then b else a.

Definition min2 (a b : Q) : Q := if Qltb b a then b else a.

(** [xs[:n]]: a negative [n] counts from the end. *)
Definition slice_to {A : Type} (xs : list A) (n : Z) : list A :=
  if (0 <=? n)%Z then List.firstn (Z.to_nat n) xs
  else List.firstn (Z.to_nat (Z.of_nat (List.length xs) + n)) xs.

(** [xs.sort(key=key, reverse=True)]: a stable sort into descending key
    order, here by insertion.  An item is placed before the first item
    whose key is not greater than its own, so items with equal keys keep
    their original order. *)
Fixpoint insert_desc {A : Type} (key : A -> Q) (x : A) (xs : list A) : list A :=
  match xs with
  | [] => [x]
  | y :: ys =>
      if Qle_bool (key y) (key x) then x :: y :: ys
      else y :: insert_desc key x ys
  end.

Fixpoint sort_desc {A : Type} (key : A -> Q) (xs : list A) : list A :=
  match xs with
  | [] => []
  | x :: xs' => insert_desc key x (sort_desc key xs')
  end.

End Py.

Import Py.

#[export] Instance result_bind : MBind result := fun A B k m => bind m k.

(** ** [combine_emotion_sentiment] *)

(** [for emotion in labels: if emotion in combined: combined[emotion] *= 1.2] *)
Definition boost (combined : dict Q) (labels : list string) : dict Q :=
  List.fold_left
    (fun c emotion =>
       if dict_contains c emotion then dict_aug c emotion (fun v => v * 1.2)
       else c)
    labels combined.

(** The working map after the sentiment branch, before normalisation. *)
Definition adjust_by_sentiment (emotions sentiment : dict Q) : dict Q :=
  let combined := emotions in
  if Qltb 0.5 (dict_get sentiment "POSITIVE" 0) then
    boost combined ["joy"; "love"; "optimism"]
  else if Qltb 0.5 (dict_get sentiment "NEGATIVE" 0) then
    boost combined ["sadness"; "anger"; "fear"]
  else combined.

Definition combine_emotion_sentiment (emotions sentiment : dict Q) : dict Q :=
  let combined := adjust_by_sentiment emotions sentiment in
  let total := sum (dict_values combined) in
  if Qltb 0 total then dict_comp (fun v => v / total) combined
  else combined.

(** ** [emotion_to_mood_score] *)

Definition emotion_scores : dict Q :=
  [("joy", 9); ("love", 8); ("optimism", 7); ("neutral", 5);
   ("sadness", 3); ("anger", 2); ("fear", 2); ("surprise", 6)].

Definition emotion_to_mood_score (emotion : string) (confidence : Q) : Q :=
  let base_score := dict_get emotion_scores emotion 5 in
  let adjusted_score := base_score + (confidence - 0.5) * 2 in
  max2 1 (min2 10 adjusted_score).

(** ** [audio_features_to_emotions] *)

Definition audio_features_to_emotions (features : dict Q) : dict Q :=
  let emotions : dict Q := [] in
  let valence := dict_get features "valence" 0.5 in
  let emotions := dict_setitem emotions "joy" valence in
  let emotions := dict_setitem emotions "sadness" (1 - valence) in
  let energy := dict_get features "energy" 0.5 in
  let emotions := dict_setitem emotions "anger" (energy * 0.7) in
  let emotions := dict_setitem emotions "fear" (energy * 0.3) in
  let danceability := dict_get features "danceability" 0.5 in
  let emotions := dict_aug emotions "joy" (fun v => v + danceability * 0.3) in
  let total := sum (dict_values emotions) in
  if Qltb 0 total then dict_comp (fun v => v / total) emotions
  else emotions.

(** The values before the final normalisation (lines 265-279 of the
    source), named for the statements about the zero-sum case. *)
Definition unnormalized_emotions (features : dict Q) : dict Q :=
  let valence := dict_get features "valence" 0.5 in
  let energy := dict_get features "energy" 0.5 in
  let danceability := dict_get features "danceability" 0.5 in
  [("joy", valence + danceability * 0.3); ("sadness", 1 - valence);
   ("anger", energy * 0.7); ("fear", energy * 0.3)].

(** ** The analysis endpoints: dominant emotion and confidence *)

Record MoodAnalysisResponse : Type := {
  mood_emotions_of : dict Q;
  mood_dominant_emotion : string;
  mood_confidence : Q;
  mood_score : Q
}.

Record AudioMoodResponse : Type := {
  audio_emotions_of : dict Q;
  audio_dominant_emotion : string;
  audio_confidence : Q
}.

(** The body of [analyze_text_mood] after the two classifier calls: the
    arguments are the dicts built from the pipelines' label/score lists. *)
Definition analyze_text_mood (emotions sentiment_scores : dict Q)
  : result MoodAnalysisResponse :=
  let combined_emotions := combine_emotion_sentiment emotions sentiment_scores in
  dominant_emotion ← max_key combined_emotions;
  confidence ← dict_getitem combined_emotions dominant_emotion;
  let mood_score := emotion_to_mood_score dominant_emotion confidence in
  Ok {| mood_emotions_of := combined_emotions;
        mood_dominant_emotion := dominant_emotion;
        mood_confidence := confidence;
        mood_score := mood_score |}.

Definition analyze_audio_mood (audio_features : dict Q) : result AudioMoodResponse :=
  let emotions := audio_features_to_emotions audio_features in
  dominant_emotion ← max_key emotions;
  confidence ← dict_getitem emotions dominant_emotion;
  Ok {| audio_emotions_of := emotions;
        audio_dominant_emotion := dominant_emotion;
        audio_confidence := confidence |}.

(** ** [get_mood_based_recommendations] *)

(** The [audio_features] entry of a catalog track. *)
Record TrackAudio : Type := {
  tempo : Q;
  valence : Q;
  energy : Q;
  danceability : Q
}.

(** A value of the [music_features] dict. *)
Record Track : Type := {
  id : string;
  title : string;
  artist : string;
  genre_tags : list string;
  mood_tags : list string;
  audio_features : TrackAudio
}.

(** An element of [scored_tracks].  The [reason] text is formatted from the
    matching tag set and the dominant emotion, which are kept as they are. *)
Record ScoredTrack : Type := {
  track_id : string;
  scored_title : string;
  scored_artist : string;
  score : Q;
  reason : gset string * string
}.

Definition emotion_to_mood_tags : dict (list string) :=
  [("joy", ["happy"; "uplifting"; "energetic"]);
   ("sadness", ["melancholic"; "introspective"; "calm"]);
   ("anger", ["calm"; "peaceful"; "meditative"]);
   ("fear", ["calm"; "peaceful"; "ambient"]);
   ("love", ["romantic"; "warm"; "uplifting"]);
   ("surprise", ["energetic"; "uplifting"; "happy"])].

(** [len(s)] as a number. *)
Definition len (s : gset string) : Q := inject_Z (Z.of_nat (size s)).

(** The body of the scoring loop for one catalog entry. *)
Definition score_track (dominant_emotion : string) (target_mood_tags : list string)
           (track_id : string) (track_data : Track) : ScoredTrack :=
  let score := 0 in
  let matching_tags : gset string :=
    list_to_set (mood_tags track_data) ∩ list_to_set target_mood_tags in
  let score := score + len matching_tags * 0.5 in
  let audio_features := audio_features track_data in
  let score :=
    if String.eqb dominant_emotion "joy" then
      score + valence audio_features * 0.3 + energy audio_features * 0.2
    else if String.eqb dominant_emotion "sadness" then
      score + (1 - valence audio_features) * 0.3 + (1 - energy audio_features) * 0.2
    else score in
  {| track_id := track_id;
     scored_title := title track_data;
     scored_artist := artist track_data;
     score := score;
     reason := (matching_tags, dominant_emotion) |}.

(** [scored_tracks] before the sort. *)
Definition score_tracks (catalog : dict Track) (dominant_emotion : string)
  : list ScoredTrack :=
  let target_mood_tags := dict_get emotion_to_mood_tags dominant_emotion ["neutral"] in
  List.map (fun entry => score_track dominant_emotion target_mood_tags (fst entry) (snd entry))
           catalog.

(** The global [music_features] is [None] before start-up and a dict of
    tracks afterwards; it is passed as an argument. *)
Definition get_mood_based_recommendations (music_features : option (dict Track))
           (mood_emotions : dict Q) (limit : Z) : result (list ScoredTrack) :=
  match music_features with
  | None => Ok []
  | Some catalog =>
      dominant_emotion ← max_key mood_emotions;
      let scored_tracks := score_tracks catalog dominant_emotion in
      let scored_tracks := sort_desc score scored_tracks in
      Ok (slice_to scored_tracks limit)
  end.

(** [load_music_features]: the two sample tracks. *)
Definition sample_track_1 : Track :=
  {| id := "sample_track_1"; title := "Calm Song"; artist := "Artist 1";
     genre_tags := ["ambient"; "calm"]; mood_tags := ["calm"; "peaceful"];
     audio_features :=
       {| tempo := 60; valence := 0.8; energy := 0.3; danceability := 0.2 |} |}.

Definition sample_track_2 : Track :=
  {| id := "sample_track_2"; title := "Energetic Song"; artist := "Artist 2";
     genre_tags := ["electronic"; "dance"]; mood_tags := ["energetic"; "happy"];
     audio_features :=
       {| tempo := 128; valence := 0.9; energy := 0.8; danceability := 0.9 |} |}.

Definition load_music_features : dict Track :=
  [("sample_track_1", sample_track_1); ("sample_track_2", sample_track_2)].

(** The [recommend-music] handler.  Its guard reads both globals,
    [music_features] and [music_embeddings]; the 503 it raises and any
    exception of the body leave through [except Exception] as a 500. *)
Inductive http (A : Type) : Type :=
| Http200 (body : A)
| HttpError (status : Z).

Arguments Http200 {A} body.
Arguments HttpError {A} status.

Record MusicRecommendationRequest : Type := {
  user_id : string;
  request_mood_emotions : dict Q;
  request_limit : Z
}.

Definition recommend_music (music_features : option (dict Track))
           (music_embeddings : option (list (list Q) * list string))
           (request : MusicRecommendationRequest) : http (list ScoredTrack) :=
  match music_features, music_embeddings with
  | Some _, Some _ =>
      match get_mood_based_recommendations music_features
              (request_mood_emotions request) (request_limit request) with
      | Ok recommendations => Http200 recommendations
      | Raise _ => HttpError 500
      end
  | _, _ => HttpError 500
  end.

(** ** Statements about the dominant emotion *)

(** [k] with value [v] is the first maximum of [d]: no label has a greater
    value and every label listed before [k] has a smaller one. *)
Definition first_maximum (d : dict Q) (k : string) (v : Q) : Prop :=
  dict_find d k = Some v
  /\ (forall k' v', dict_find d k' = Some v' -> v' <= v)
  /\ exists before after : list string,
       dict_keys d = before ++ k :: after
       /\ forall k', List.In k' before -> dict_get d k' 0 < v.

(** [k] with value [v] is the maximum of [d] that comes first in
    lexicographic label order. *)
Definition lexicographic_maximum (d : dict Q) (k : string) (v : Q) : Prop :=
  dict_find d k = Some v
  /\ (forall k' v', dict_find d k' = Some v' -> v' <= v)
  /\ (forall k' v', dict_find d k' = Some v' -> v' == v -> String.leb k k' = true).

(** ** Sample inputs *)

(** The fusion example: a positive text. *)
Definition example_emotions : dict Q :=
  [("joy", 0.4); ("sadness", 0.3); ("anger", 0.2); ("fear", 0.1)].

Definition example_sentiment : dict Q :=
  [("POSITIVE", 0.7); ("NEGATIVE", 0.1); ("NEUTRAL", 0.2)].

(** Two labels with the same value, the lexicographically greater first. *)
Definition tied_emotions : dict Q := [("sadness", 0.5); ("joy", 0.5)].

(** A degenerate classifier output. *)
Definition zero_emotions : dict Q := [("sadness", 0); ("joy", 0)].

(** ** Statements about the mood score and the track score *)

(** The base-score table as the specification lists it. *)
Definition base_score_table (label : string) : Q :=
  if String.eqb label "joy" then 9
  else if String.eqb label "love" then 8
  else if String.eqb label "optimism" then 7
  else if String.eqb label "surprise" then 6
  else if String.eqb label "neutral" then 5
  else if String.eqb label "sadness" then 3
  else if String.eqb label "anger" then 2
  else if String.eqb label "fear" then 2
  else 5.

(** [clamp x lo hi]: [x] brought into the interval from [lo] to [hi]. *)
Definition clamp (x lo hi : Q) : Q :=
  if Qltb x lo then lo else if Qltb hi x then hi else x.

(** The number of distinct mood tags of a track that are target tags. *)
Definition tag_overlap (tags target : list string) : nat :=
  length (filter (fun t => t ∈ target) (remove_dups tags)).

(** The audio term of the specification, by dominant emotion. *)
Definition audio_term (dominant_emotion : string) (a : TrackAudio) : Q :=
  if String.eqb dominant_emotion "joy" then valence a * 0.3 + energy a * 0.2
  else if String.eqb dominant_emotion "sadness" then
    (1 - valence a) * 0.3 + (1 - energy a) * 0.2
  else 0.

(** ** Statements about the ranking *)

(** Descending score order. *)
Definition score_desc (a b : ScoredTrack) : Prop := score b <= score a.

(** Descending score order, equal scores in ascending [track_id] order. *)
Definition score_desc_then_id (a b : ScoredTrack) : Prop :=
  score b < score a
  \/ (score a == score b /\ String.leb (track_id a) (track_id b) = true).

(** The entries with score [s]. *)
Definition with_score (s : Q) (xs : list ScoredTrack) : list ScoredTrack :=
  List.filter (fun t => Qeq_bool (score t) s) xs.

(** A track without mood tags. *)
Definition plain_track (name : string) : Track :=
  {| id := name; title := name; artist := "Artist";
     genre_tags := []; mood_tags := [];
     audio_features :=
       {| tempo := 100; valence := 0.5; energy := 0.5; danceability := 0.5 |} |}.

(** A catalog whose iteration order is not the order of its ids. *)
Definition unordered_catalog : dict Track :=
  [("track_b", plain_track "track_b"); ("track_a", plain_track "track_a")].

Definition love_mood : dict Q := [("love", 1)].

Definition joy_mood : dict Q := [("joy", 1)].

Definition request_with_limit (n : Z) : MusicRecommendationRequest :=
  {| user_id := "user"; request_mood_emotions := joy_mood; request_limit := n |}.

(** The descriptor of the specification's audio example. *)
Definition example_descriptor : dict Q :=
  [("valence", 0.8); ("energy", 0.3); ("danceability", 0.2)].

(** A descriptor outside the unit range whose unnormalised emotion values
    are all zero. *)
Definition zero_sum_descriptor : dict Q :=
  [("valence", 1); ("energy", 0); ("danceability", -10 # 3)].

(** ** [extract_audio_features_librosa] *)

(** What the librosa calls give for one signal, each already reduced by
    [float(np.mean(...))] or [float(np.std(...))] as the source does:
    the tempo of [beat_track], the mean spectral centroid, the mean
    zero-crossing rate, the mean of row [i] of the MFCC matrix, the
    deviation of the beat frames and the mean RMS. *)
Record LibrosaMeasurements : Type := {
  beat_tempo : Q;
  spectral_centroid_mean : Q;
  zero_crossing_rate_mean : Q;
  mfcc_mean : nat -> Q;
  beat_frames_std : Q;
  rms_mean : Q
}.

(** [f'mfcc_{i}'] *)
Definition mfcc_key (i : nat) : string :=
  ("mfcc_" ++ NilZero.string_of_uint (Nat.to_uint i))%string.

Definition extract_audio_features_librosa (m : LibrosaMeasurements) : result (dict Q) :=
  let features : dict Q := [] in
  let features := dict_setitem features "tempo" (beat_tempo m) in
  let features := dict_setitem features "spectral_centroid" (spectral_centroid_mean m) in
  let features := dict_setitem features "zero_crossing_rate" (zero_crossing_rate_mean m) in
  let features :=
    List.fold_left (fun f i => dict_setitem f (mfcc_key i) (mfcc_mean m i))
                   (List.seq 0 13) features in
  let features := dict_setitem features "rhythm" (beat_frames_std m) in
  let features := dict_setitem features "energy" (rms_mean m) in
  spectral_centroid ← dict_getitem features "spectral_centroid";
  let features :=
    dict_setitem features "valence"
                 (min2 1 (max2 0 (spectral_centroid / 3000 * 0.5 + 0.5))) in
  energy ← dict_getitem features "energy";
  let features := dict_setitem features "arousal" (min2 1 (max2 0 (energy * 2))) in
  Ok features.

(** ** [compute_music_embeddings] *)

(** The loop appends one feature vector and one id per catalog entry; the
    result is the pair of both lists. *)
Definition compute_music_embeddings (features : dict Track)
  : list (list Q) * list string :=
  List.fold_left
    (fun acc entry =>
       let track_data := snd entry in
       let feature_vector :=
         [tempo (audio_features track_data) / 200;
          valence (audio_features track_data);
          energy (audio_features track_data);
          danceability (audio_features track_data)] in
       (fst acc ++ [feature_vector], snd acc ++ [fst entry]))
    features ([], []).

(** ** Statements about the sentiment boost *)

(** The labels that the sentiment dict selects for the boost. *)
Definition boosted_labels (sentiment : dict Q) : list string :=
  if Qltb 0.5 (dict_get sentiment "POSITIVE" 0) then ["joy"; "love"; "optimism"]
  else if Qltb 0.5 (dict_get sentiment "NEGATIVE" 0) then ["sadness"; "anger"; "fear"]
  else [].

(** Is [k] one of [labels]? *)
Definition is_label (labels : list string) (k : string) : bool :=
  List.existsb (String.eqb k) labels.

(** An entry after the boost of [labels]. *)
Definition boosted (labels : list string) (kv : string * Q) : string * Q :=
  (fst kv, if is_label labels (fst kv) then snd kv * 1.2 else snd kv).

(** The value that start-up gives to [music_embeddings]. *)
Definition loaded_embeddings : list (list Q) * list string :=
  compute_music_embeddings load_music_features.

(** A catalog of three tracks; under [joy] the two plain tracks score the
    same and the sample track scores more. *)
Definition mixed_catalog : dict Track :=
  [("track_b", plain_track "track_b");
   ("sample_track_2", sample_track_2);
   ("track_a", plain_track "track_a")].

(** A request whose mood dict is empty. *)
Definition empty_mood_request : MusicRecommendationRequest :=
  {| user_id := "user"; request_mood_emotions := []; request_limit := 1 |}.

(** Sample librosa measurements. *)
Definition example_measurements : LibrosaMeasurements :=
  {| beat_tempo := 120; spectral_centroid_mean := 1500;
     zero_crossing_rate_mean := 0.1; mfcc_mean := fun i => inject_Z (Z.of_nat i);
     beat_frames_std := 40; rms_mean := 0.2 |}.

(** What the audio endpoint answers for [example_descriptor]. *)
Definition example_audio_response : AudioMoodResponse :=
  {| audio_emotions_of := audio_features_to_emotions example_descriptor;
     audio_dominant_emotion := "joy";
     audio_confidence := dict_get (audio_features_to_emotions example_descriptor) "joy" 0 |}.

(** The features extracted from [example_measurements]. *)
Definition example_features : dict Q :=
  Eval vm_compute in
    match extract_audio_features_librosa example_measurements with
    | Ok features => features
    | Raise _ => []
    end.

(** ** Facts about the runtime fragment *)

Section PyFacts.

Lemma Qltb_lt (a b : Q) : Qltb a b = true <-> a < b.
Proof.
  unfold Qltb. rewrite negb_true_iff.
  destruct (Qle_bool b a) eqn:E.
  - apply Qle_bool_iff in E. split; [discriminate | lra].
  - split; [intros _ | reflexivity].
    apply Qnot_le_lt. intros H. apply Qle_bool_iff in H. congruence.
Qed.

Lemma Qltb_ge (a b : Q) : Qltb a b = false <-> b <= a.
Proof.
  unfold Qltb. rewrite negb_false_iff. apply Qle_bool_iff.
Qed.

Context {V : Type}.

Lemma dict_find_key (d : dict V) (k : string) :
  List.In k (dict_keys d) <-> exists v, dict_find d k = Some v.
Proof.
  induction d as [|[k' v'] d IH]; simpl.
  - split; [tauto | intros [v Hv]; discriminate].
  - destruct (String.eqb_spec k' k) as [->|Hne].
    + split; eauto.
    + rewrite <- IH. split; [intros [H|H]; [congruence | exact H] | auto].
Qed.

Lemma dict_contains_In (d : dict V) (k : string) :
  dict_contains d k = true <-> List.In k (dict_keys d).
Proof.
  rewrite dict_find_key. unfold dict_contains.
  destruct (dict_find d k) as [v|]; split; eauto; try discriminate.
  intros [v Hv]; discriminate.
Qed.

Lemma dict_find_In (d : dict V) (k : string) (v : V) :
  dict_find d k = Some v -> List.In (k, v) d.
Proof.
  induction d as [|[k' v'] d IH]; simpl; [discriminate|].
  destruct (String.eqb_spec k' k) as [->|Hne].
  - intros [= ->]. now left.
  - intros H. right. auto.
Qed.

(** Overwriting a key of the dict leaves the key sequence as it is. *)
Lemma dict_keys_setitem_present (d : dict V) (k : string) (v : V) :
  List.In k (dict_keys d) -> dict_keys (dict_setitem d k v) = dict_keys d.
Proof.
  induction d as [|[k' v'] d IH]; simpl; [tauto|].
  destruct (String.eqb_spec k' k) as [->|Hne]; [reflexivity|].
  intros [H|H]; [congruence|]. simpl. f_equal. apply IH, H.
Qed.

(** A new key is appended. *)
Lemma dict_setitem_fresh (d : dict V) (k : string) (v : V) :
  ~ List.In k (dict_keys d) -> dict_setitem d k v = d ++ [(k, v)].
Proof.
  induction d as [|[k' v'] d IH]; simpl; [reflexivity|].
  intros H. destruct (String.eqb_spec k' k) as [->|Hne]; [tauto|].
  f_equal. apply IH. tauto.
Qed.

Lemma dict_keys_aug (d : dict V) (k : string) (f : V -> V) :
  dict_keys (dict_aug d k f) = dict_keys d.
Proof.
  unfold dict_aug. destruct (dict_find d k) as [v|] eqn:E; [|reflexivity].
  apply dict_keys_setitem_present, dict_find_key. eauto.
Qed.

End PyFacts.

Section Comprehension.

Context {V W : Type}.

Lemma dict_comp_acc (f : V -> W) (d : dict V) (acc : dict W) :
  dict_wf d ->
  (forall k, List.In k (dict_keys d) -> ~ List.In k (dict_keys acc)) ->
  List.fold_left (fun a kv => dict_setitem a (fst kv) (f (snd kv))) d acc
  = acc ++ List.map (fun kv => (fst kv, f (snd kv))) d.
Proof.
  unfold dict_wf. revert acc.
  induction d as [|[k v] d IH]; intros acc Hwf Hfresh;
    cbn [List.fold_left List.map fst snd].
  - now rewrite app_nil_r.
  - inversion Hwf as [|? ? Hk Hd]; subst.
    rewrite dict_setitem_fresh by (apply Hfresh; now left).
    rewrite IH; [now rewrite <- app_assoc | exact Hd |].
    intros k' Hk' Hin. unfold dict_keys in Hin.
    rewrite List.map_app in Hin. apply in_app_or in Hin.
    destruct Hin as [Hin|[<-|[]]].
    + apply (Hfresh k'); [now right | exact Hin].
    + apply Hk, Hk'.
Qed.

(** On a dict (distinct keys) the comprehension maps the values in place. *)
Lemma dict_comp_map (f : V -> W) (d : dict V) :
  dict_wf d -> dict_comp f d = List.map (fun kv => (fst kv, f (snd kv))) d.
Proof.
  intros Hwf. unfold dict_comp. rewrite dict_comp_acc; auto.
Qed.

Lemma dict_keys_comp (f : V -> W) (d : dict V) :
  dict_wf d -> dict_keys (dict_comp f d) = dict_keys d.
Proof.
  intros Hwf. rewrite dict_comp_map by exact Hwf.
  unfold dict_keys. rewrite List.map_map. reflexivity.
Qed.

Lemma dict_values_comp (f : V -> W) (d : dict V) :
  dict_wf d -> dict_values (dict_comp f d) = List.map f (dict_values d).
Proof.
  intros Hwf. rewrite dict_comp_map by exact Hwf.
  unfold dict_values. now rewrite !List.map_map.
Qed.

End Comprehension.

Section SumFacts.

Lemma fold_left_Qplus_acc (xs : list Q) (a : Q) :
  List.fold_left Qplus xs a == a + sum xs.
Proof.
  unfold sum. revert a.
  induction xs as [|x xs IH]; intros a; simpl; [lra|].
  rewrite (IH (a + x)), (IH (0 + x)). lra.
Qed.

Lemma sum_cons (x : Q) (xs : list Q) : sum (x :: xs) == x + sum xs.
Proof.
  unfold sum at 1. simpl. rewrite fold_left_Qplus_acc. lra.
Qed.

(** Dividing every term by [t] divides the sum by [t]. *)
Lemma sum_map_div (xs : list Q) (t : Q) :
  sum (List.map (fun v => v / t) xs) == sum xs / t.
Proof.
  induction xs as [|x xs IH]; simpl.
  - unfold sum; simpl. unfold Qdiv. lra.
  - rewrite !sum_cons, IH. unfold Qdiv. lra.
Qed.

End SumFacts.

(** ** Sentiment fusion *)

Section Fusion.

Lemma boost_keys (labels : list string) (combined : dict Q) :
  dict_keys (boost combined labels) = dict_keys combined.
Proof.
  unfold boost. revert combined.
  induction labels as [|l labels IH]; intros combined; simpl; [reflexivity|].
  rewrite IH. destruct (dict_contains combined l); [apply dict_keys_aug | reflexivity].
Qed.

Lemma adjust_keys (emotions sentiment : dict Q) :
  dict_keys (adjust_by_sentiment emotions sentiment) = dict_keys emotions.
Proof.
  unfold adjust_by_sentiment.
  repeat match goal with |- context [if ?b then _ else _] => destruct b end;
    auto using boost_keys.
Qed.

Lemma adjust_wf (emotions sentiment : dict Q) :
  dict_wf emotions -> dict_wf (adjust_by_sentiment emotions sentiment).
Proof.
  unfold dict_wf. now rewrite adjust_keys.
Qed.

Lemma contains_by_keys (d d' : dict Q) :
  dict_keys d = dict_keys d' -> forall k, dict_contains d k = dict_contains d' k.
Proof.
  intros Hk k.
  destruct (dict_contains d k) eqn:E1, (dict_contains d' k) eqn:E2; auto.
  - apply dict_contains_In in E1. rewrite Hk in E1.
    apply dict_contains_In in E1. congruence.
  - apply dict_contains_In in E2. rewrite <- Hk in E2.
    apply dict_contains_In in E2. congruence.
Qed.

(** Whenever the working map has a positive total, the values returned
    add up to exactly one. *)
Lemma combine_total_one (emotions sentiment : dict Q) :
  dict_wf emotions ->
  0 < sum (dict_values (adjust_by_sentiment emotions sentiment)) ->
  sum (dict_values (combine_emotion_sentiment emotions sentiment)) == 1.
Proof.
  intros Hwf Hpos. unfold combine_emotion_sentiment.
  apply Qltb_lt in Hpos as Hb. cbv zeta. rewrite Hb.
  rewrite dict_values_comp by now apply adjust_wf.
  rewrite sum_map_div. field. lra.
Qed.

End Fusion.

(** C10.  The dict returned by [combine_emotion_sentiment] has the labels
    of the input emotion dict, in the same order: the boost only rewrites
    values of labels that are present, so no label (such as a sentiment
    label) is added and none is dropped. *)
Theorem fusion_preserves_labels (emotions sentiment : dict Q) :
  dict_wf emotions ->
  dict_keys (combine_emotion_sentiment emotions sentiment) = dict_keys emotions
  /\ forall k : string,
       dict_contains (combine_emotion_sentiment emotions sentiment) k
       = dict_contains emotions k.
Proof.
  intros Hwf.
  assert (Hk : dict_keys (combine_emotion_sentiment emotions sentiment)
               = dict_keys emotions).
  { unfold combine_emotion_sentiment. cbv zeta.
    destruct (Qltb 0 _).
    - rewrite dict_keys_comp by now apply adjust_wf. apply adjust_keys.
    - apply adjust_keys. }
  split; [exact Hk | now apply contains_by_keys].
Qed.

Lemma example_emotions_wf : dict_wf example_emotions.
Proof.
  unfold dict_wf. simpl.
  repeat (constructor; [simpl; intuition discriminate|]). constructor.
Defined.

Lemma fusion_preserves_labels_witness :
  dict_keys (combine_emotion_sentiment example_emotions example_sentiment)
  = ["joy"; "sadness"; "anger"; "fear"]
  /\ forall k : string,
       dict_contains (combine_emotion_sentiment example_emotions example_sentiment) k
       = dict_contains example_emotions k.
Proof.
  exact (fusion_preserves_labels example_emotions example_sentiment example_emotions_wf).
Defined.

(** C1.  For an emotion dict and a sentiment dict with nonnegative values
    such that the working map after the sentiment boost has a positive
    total, the values returned by [combine_emotion_sentiment] add up to 1
    within 1e-9 (in exact arithmetic they add up to 1). *)
Theorem fusion_sums_to_one (emotions sentiment : dict Q) :
  dict_wf emotions ->
  Forall (fun v => 0 <= v) (dict_values emotions) ->
  Forall (fun v => 0 <= v) (dict_values sentiment) ->
  0 < sum (dict_values (adjust_by_sentiment emotions sentiment)) ->
  Qabs (sum (dict_values (combine_emotion_sentiment emotions sentiment)) - 1) <= 1e-9.
Proof.
  intros Hwf _ _ Hpos.
  rewrite (combine_total_one emotions sentiment Hwf Hpos).
  vm_compute. discriminate.
Qed.

Lemma fusion_sums_to_one_witness :
  Qabs (sum (dict_values (combine_emotion_sentiment example_emotions example_sentiment)) - 1)
  <= 1e-9.
Proof.
  apply (fusion_sums_to_one example_emotions example_sentiment).
  - exact example_emotions_wf.
  - repeat constructor; vm_compute; discriminate.
  - repeat constructor; vm_compute; discriminate.
  - vm_compute. reflexivity.
Defined.

(** ** Dominant emotion *)

Section Dominant.

Variable key : string -> Q.

Lemma max_loop_mem (rest : list string) (best : string) :
  List.In (max_loop key best (key best) rest) (best :: rest).
Proof.
  revert best. induction rest as [|k rest IH]; intros best; simpl; [auto|].
  destruct (Qltb (key best) (key k)).
  - right. apply IH.
  - destruct (IH best) as [H|H]; auto.
Qed.

Lemma max_loop_upper (rest : list string) (best : string) :
  forall k, List.In k (best :: rest) ->
            key k <= key (max_loop key best (key best) rest).
Proof.
  revert best. induction rest as [|k rest IH]; intros best x Hx; simpl.
  - destruct Hx as [<-|[]]. lra.
  - destruct (Qltb (key best) (key k)) eqn:E.
    + apply Qltb_lt in E.
      destruct Hx as [<-|Hx]; [|now apply IH].
      specialize (IH k k (or_introl eq_refl)). lra.
    + apply Qltb_ge in E.
      destruct Hx as [<-|[<-|Hx]].
      * apply IH. now left.
      * specialize (IH best best (or_introl eq_refl)). lra.
      * apply IH. now right.
Qed.

Lemma max_loop_first (rest : list string) (best : string) :
  exists before after : list string,
    best :: rest = before ++ max_loop key best (key best) rest :: after
    /\ forall k, List.In k before ->
                 key k < key (max_loop key best (key best) rest).
Proof.
  revert best. induction rest as [|k rest IH]; intros best; simpl.
  - exists [], []. split; [reflexivity | intros k []].
  - destruct (Qltb (key best) (key k)) eqn:E.
    + apply Qltb_lt in E.
      destruct (IH k) as (before & after & Heq & Hlt).
      exists (best :: before), after. split; [simpl; now rewrite Heq|].
      intros x [<-|Hx]; [|now apply Hlt].
      pose proof (max_loop_upper rest k k (or_introl eq_refl)). lra.
    + apply Qltb_ge in E.
      destruct (IH best) as (before & after & Heq & Hlt).
      destruct before as [|b before]; simpl in Heq.
      * injection Heq as Hb Hr. exists [], (k :: rest).
        split; [simpl; now rewrite <- Hb | intros x []].
      * injection Heq as Hb Hr. subst b.
        exists (best :: k :: before), after.
        split; [simpl; do 2 f_equal; exact Hr|].
        intros x [<-|[<-|Hx]].
        -- apply Hlt. now left.
        -- specialize (Hlt best (or_introl eq_refl)). lra.
        -- apply Hlt. now right.
Qed.

End Dominant.

(** The two lines shared by both endpoints,
    [dominant = max(d, key=d.get); confidence = d[dominant]]. *)
Lemma max_key_first_maximum (d : dict Q) (k : string) (v : Q) :
  max_key d = Ok k -> dict_getitem d k = Ok v -> first_maximum d k v.
Proof.
  unfold max_key, dict_getitem.
  destruct (dict_keys d) as [|k0 rest] eqn:Hkeys; [discriminate|].
  intros [= <-]. set (key := fun x => dict_get d x 0).
  change (dict_get d k0 0) with (key k0).
  destruct (dict_find d _) as [v'|] eqn:Hfind; [|discriminate].
  intros [= ->].
  assert (Hval : key (max_loop key k0 (key k0) rest) = v)
    by (unfold key at 1, dict_get; now rewrite Hfind).
  split; [exact Hfind|]. split.
  - intros k' v' Hk'.
    assert (Hin : List.In k' (k0 :: rest))
      by (rewrite <- Hkeys; apply dict_find_key; eauto).
    pose proof (max_loop_upper key rest k0 k' Hin) as Hle.
    rewrite Hval in Hle. unfold key, dict_get in Hle. now rewrite Hk' in Hle.
  - destruct (max_loop_first key rest k0) as (before & after & Heq & Hlt).
    exists before, after. split; [now rewrite Hkeys|].
    intros k' Hk'. specialize (Hlt k' Hk'). now rewrite Hval in Hlt.
Qed.

(** On a non-empty dict both lines succeed. *)
Lemma max_key_total (d : dict Q) :
  d <> [] -> exists k v, max_key d = Ok k /\ dict_getitem d k = Ok v.
Proof.
  intros Hne. unfold max_key, dict_getitem.
  destruct (dict_keys d) as [|k0 rest] eqn:Hkeys.
  - destruct d; [congruence | discriminate].
  - set (k := max_loop _ _ _ _).
    assert (Hin : List.In k (dict_keys d))
      by (rewrite Hkeys; apply max_loop_mem).
    apply dict_find_key in Hin as [v Hv]. exists k, v. now rewrite Hv.
Qed.

(** In an all-zero dict the first maximum is the first label. *)
Lemma first_maximum_all_zero (d : dict Q) (k : string) (v : Q) :
  first_maximum d k v ->
  Forall (fun x => x == 0) (dict_values d) ->
  v == 0 /\ exists rest, dict_keys d = k :: rest.
Proof.
  intros (Hfind & _ & before & after & Hkeys & Hlt) Hzero.
  assert (Hall : forall k' v', dict_find d k' = Some v' -> v' == 0).
  { intros k' v' H. apply dict_find_In in H.
    rewrite List.Forall_forall in Hzero. apply Hzero.
    unfold dict_values. change v' with (snd (k', v')). now apply List.in_map. }
  split; [eauto|].
  destruct before as [|b before]; [eauto|]. exfalso.
  specialize (Hlt b (or_introl eq_refl)).
  assert (Hb : List.In b (dict_keys d)) by (rewrite Hkeys; now left).
  apply dict_find_key in Hb as [vb Hvb].
  unfold dict_get in Hlt. rewrite Hvb in Hlt.
  apply Hall in Hvb, Hfind. lra.
Qed.

(** The audio endpoint never fails and selects the first maximum of the
    mapped emotions. *)
Lemma audio_dominant_first_maximum (features : dict Q) (r : AudioMoodResponse) :
  analyze_audio_mood features = Ok r ->
  audio_emotions_of r = audio_features_to_emotions features
  /\ first_maximum (audio_emotions_of r) (audio_dominant_emotion r) (audio_confidence r).
Proof.
  unfold analyze_audio_mood. cbv zeta.
  destruct (max_key _) as [k|e] eqn:Hmax; [|discriminate].
  cbn [mbind result_bind bind].
  destruct (dict_getitem _ k) as [v|e] eqn:Hget; [|discriminate].
  cbn [mbind result_bind bind]. intros [= <-]. cbn.
  split; [reflexivity | now apply max_key_first_maximum].
Qed.

(** C2, as the code has it.  When the fused dict is not empty,
    [analyze_text_mood] answers; its dominant emotion is a label of maximum
    value, among several such labels the one the dict lists first, and its
    confidence is that label's value.  Over an all-zero dict the first label
    of the dict is selected, with confidence 0. *)
Theorem dominant_is_first_maximum (emotions sentiment : dict Q) :
  let fused := combine_emotion_sentiment emotions sentiment in
  fused <> [] ->
  exists r : MoodAnalysisResponse,
    analyze_text_mood emotions sentiment = Ok r
    /\ mood_emotions_of r = fused
    /\ first_maximum fused (mood_dominant_emotion r) (mood_confidence r)
    /\ (Forall (fun v => v == 0) (dict_values fused) ->
        mood_confidence r == 0
        /\ exists rest, dict_keys fused = mood_dominant_emotion r :: rest).
Proof.
  intros fused Hne.
  destruct (max_key_total fused Hne) as (k & v & Hmax & Hget).
  eexists. unfold analyze_text_mood. cbv zeta. fold fused.
  rewrite Hmax. cbn [mbind result_bind bind].
  rewrite Hget. cbn [mbind result_bind bind].
  split; [reflexivity|]. cbn.
  pose proof (max_key_first_maximum fused k v Hmax Hget) as Hfirst.
  repeat split; try apply Hfirst.
  - now apply (first_maximum_all_zero fused k v).
  - now apply (first_maximum_all_zero fused k v).
Qed.

Lemma dominant_is_first_maximum_witness :
  exists r : MoodAnalysisResponse,
    analyze_text_mood example_emotions example_sentiment = Ok r
    /\ mood_emotions_of r = combine_emotion_sentiment example_emotions example_sentiment
    /\ first_maximum (combine_emotion_sentiment example_emotions example_sentiment)
                     (mood_dominant_emotion r) (mood_confidence r)
    /\ (Forall (fun v => v == 0)
               (dict_values (combine_emotion_sentiment example_emotions example_sentiment)) ->
        mood_confidence r == 0
        /\ exists rest,
            dict_keys (combine_emotion_sentiment example_emotions example_sentiment)
            = mood_dominant_emotion r :: rest).
Proof.
  apply (dominant_is_first_maximum example_emotions example_sentiment).
  vm_compute. discriminate.
Defined.

(** C2 as stated fails.  With the two labels [sadness] and [joy] tied at
    0.5, and likewise with both at 0, the selected label is [sadness], the
    first of the dict, although [joy] precedes it lexicographically. *)
Lemma dominant_not_lexicographic :
  (exists r : MoodAnalysisResponse,
      analyze_text_mood tied_emotions [] = Ok r
      /\ mood_dominant_emotion r = "sadness"
      /\ ~ lexicographic_maximum (mood_emotions_of r) (mood_dominant_emotion r)
                                 (mood_confidence r))
  /\ (exists r : MoodAnalysisResponse,
         analyze_text_mood zero_emotions [] = Ok r
         /\ mood_dominant_emotion r = "sadness"
         /\ mood_confidence r == 0
         /\ ~ lexicographic_maximum (mood_emotions_of r) (mood_dominant_emotion r)
                                    (mood_confidence r)).
Proof.
  split.
  - eexists. split; [vm_compute; reflexivity|]. split; [reflexivity|].
    intros (_ & _ & Hlex). cbn in Hlex.
    specialize (Hlex "joy" _ eq_refl). 
    assert (Habs : String.leb "sadness" "joy" = true)
      by (apply Hlex; vm_compute; reflexivity).
    vm_compute in Habs. discriminate.
  - eexists. split; [vm_compute; reflexivity|]. split; [reflexivity|].
    split; [vm_compute; reflexivity|].
    intros (_ & _ & Hlex). cbn in Hlex.
    specialize (Hlex "joy" _ eq_refl).
    assert (Habs : String.leb "sadness" "joy" = true)
      by (apply Hlex; vm_compute; reflexivity).
    vm_compute in Habs. discriminate.
Qed.

(** ** Mood score *)

Lemma emotion_scores_table (emotion : string) :
  dict_get emotion_scores emotion 5 = base_score_table emotion.
Proof.
  unfold dict_get, emotion_scores, base_score_table. cbn [dict_find].
  repeat match goal with
         | |- context [String.eqb ?a emotion] =>
             destruct (String.eqb_spec a emotion) as [<-|?]; [reflexivity|]
         end.
  repeat match goal with
         | |- context [String.eqb emotion ?a] =>
             destruct (String.eqb_spec emotion a) as [->|?]; [congruence|]
         end.
  reflexivity.
Qed.

(** Case analysis on the comparisons of the goal, innermost first. *)
Ltac qltb_cases :=
  repeat match goal with
         | |- context [Qltb ?a ?b] =>
             lazymatch a with context [Qltb _ _] => fail | _ => idtac end;
             lazymatch b with context [Qltb _ _] => fail | _ => idtac end;
             let E := fresh "E" in
             destruct (Qltb a b) eqn:E; [apply Qltb_lt in E | apply Qltb_ge in E]
         end.

Lemma max_min_clamp (x : Q) :
  max2 1 (min2 10 x) == clamp x 1 10 /\ 1 <= max2 1 (min2 10 x) <= 10.
Proof.
  unfold max2, min2, clamp. qltb_cases; lra.
Qed.

(** C4.  For every label and every confidence between 0 and 1,
    [emotion_to_mood_score] is the clamp to [1, 10] of
    [base + (confidence - 0.5) * 2], where [base] is read from the fixed
    table (5 for a label the table does not have); the result lies in
    [1, 10]. *)
Theorem mood_score_clamped (emotion : string) (confidence : Q) :
  0 <= confidence <= 1 ->
  emotion_to_mood_score emotion confidence
  == clamp (base_score_table emotion + (confidence - 0.5) * 2) 1 10
  /\ 1 <= emotion_to_mood_score emotion confidence <= 10.
Proof.
  intros _. unfold emotion_to_mood_score. cbv zeta.
  rewrite emotion_scores_table. apply max_min_clamp.
Qed.

Lemma mood_score_clamped_witness :
  emotion_to_mood_score "joy" 0.9 == clamp (base_score_table "joy" + (0.9 - 0.5) * 2) 1 10
  /\ 1 <= emotion_to_mood_score "joy" 0.9 <= 10.
Proof.
  apply (mood_score_clamped "joy" 0.9). split; vm_compute; discriminate.
Defined.

(** ** Track score *)

Lemma matching_tags_size (tags target : list string) :
  size (list_to_set tags ∩ list_to_set target : gset string)
  = tag_overlap tags target.
Proof.
  unfold tag_overlap.
  rewrite <- (size_list_to_set (C := gset string))
    by apply NoDup_filter, NoDup_remove_dups.
  f_equal. apply set_eq. intros x.
  rewrite elem_of_intersection, !elem_of_list_to_set.
  rewrite list_elem_of_filter, elem_of_remove_dups. tauto.
Qed.

Lemma len_nonneg (s : gset string) : 0 <= len s.
Proof.
  unfold len, Qle. simpl. lia.
Qed.

(** C5.  The score of a track is half the number of its mood tags that are
    target tags, plus the audio term: [valence * 0.3 + energy * 0.2] for
    joy, [(1 - valence) * 0.3 + (1 - energy) * 0.2] for sadness and nothing
    for any other dominant emotion.  With valence and energy of the track
    between 0 and 1 the score is not negative. *)
Theorem track_score_formula (dominant_emotion : string) (target_mood_tags : list string)
        (track_id : string) (track_data : Track) :
  let s := score (score_track dominant_emotion target_mood_tags track_id track_data) in
  s == inject_Z (Z.of_nat (tag_overlap (mood_tags track_data) target_mood_tags)) * 0.5
       + audio_term dominant_emotion (audio_features track_data)
  /\ (0 <= valence (audio_features track_data) <= 1 ->
      0 <= energy (audio_features track_data) <= 1 ->
      0 <= s).
Proof.
  cbv zeta. unfold score_track, audio_term. cbn [score].
  rewrite <- matching_tags_size.
  pose proof (len_nonneg (list_to_set (mood_tags track_data)
                          ∩ list_to_set target_mood_tags)) as Hlen.
  unfold len in *.
  generalize dependent (inject_Z (Z.of_nat (size (list_to_set (mood_tags track_data)
                          ∩ list_to_set target_mood_tags : gset string)))).
  intros n Hn.
  destruct (String.eqb dominant_emotion "joy");
    [|destruct (String.eqb dominant_emotion "sadness")];
    (split; [lra | intros Hv He; lra]).
Qed.

Lemma track_score_formula_witness :
  0 <= score (score_track "joy" ["happy"; "uplifting"; "energetic"] "sample_track_2"
                          sample_track_2).
Proof.
  apply (track_score_formula "joy" ["happy"; "uplifting"; "energetic"] "sample_track_2"
                             sample_track_2).
  - split; vm_compute; discriminate.
  - split; vm_compute; discriminate.
Defined.

(** Every element of [scored_tracks] is the score of one catalog entry. *)
Lemma score_tracks_elements (catalog : dict Track) (dominant_emotion : string)
      (s : ScoredTrack) :
  List.In s (score_tracks catalog dominant_emotion) ->
  exists track_id track_data,
    List.In (track_id, track_data) catalog
    /\ s = score_track dominant_emotion
                       (dict_get emotion_to_mood_tags dominant_emotion ["neutral"])
                       track_id track_data.
Proof.
  unfold score_tracks. cbv zeta. rewrite List.in_map_iff.
  intros ([track_id track_data] & <- & Hin). eauto.
Qed.

(** ** The stable descending sort *)

Section SortFacts.

Context {A : Type}.
Variable key : A -> Q.

Let desc (a b : A) : Prop := key b <= key a.

Lemma insert_desc_perm (x : A) (xs : list A) :
  Permutation (insert_desc key x xs) (x :: xs).
Proof.
  induction xs as [|y ys IH]; simpl; [reflexivity|].
  destruct (Qle_bool (key y) (key x)); [reflexivity|].
  rewrite IH. apply perm_swap.
Qed.

Lemma sort_desc_perm (xs : list A) : Permutation (sort_desc key xs) xs.
Proof.
  induction xs as [|x xs IH]; simpl; [reflexivity|].
  rewrite insert_desc_perm. now constructor.
Qed.

Lemma sort_desc_length (xs : list A) :
  List.length (sort_desc key xs) = List.length xs.
Proof.
  apply Permutation_length, sort_desc_perm.
Qed.

Lemma insert_desc_hd (x a : A) (xs : list A) :
  desc a x -> HdRel desc a xs -> HdRel desc a (insert_desc key x xs).
Proof.
  intros Hax Hhd. destruct xs as [|y ys]; simpl; [now constructor|].
  destruct (Qle_bool (key y) (key x)); constructor; [exact Hax|].
  now inversion Hhd.
Qed.

Lemma insert_desc_sorted (x : A) (xs : list A) :
  Sorted desc xs -> Sorted desc (insert_desc key x xs).
Proof.
  induction 1 as [|y ys Hs IH Hhd]; simpl; [repeat constructor|].
  destruct (Qle_bool (key y) (key x)) eqn:E.
  - apply Qle_bool_iff in E. repeat constructor; assumption.
  - constructor; [exact IH|]. apply insert_desc_hd; [|exact Hhd].
    unfold desc. destruct (Qlt_le_dec (key y) (key x)) as [Hlt|Hle]; [|exact Hle].
    exfalso. apply Qlt_le_weak, Qle_bool_iff in Hlt. congruence.
Qed.

Lemma sort_desc_sorted (xs : list A) : StronglySorted desc (sort_desc key xs).
Proof.
  apply Sorted_StronglySorted.
  - intros a b c Hab Hbc. unfold desc in *. lra.
  - induction xs as [|x xs IH]; simpl; [constructor|].
    now apply insert_desc_sorted.
Qed.

(** Stability: the items with a given key value keep their order. *)
Lemma insert_desc_filter (s : Q) (x : A) (xs : list A) :
  List.filter (fun t => Qeq_bool (key t) s) (insert_desc key x xs)
  = List.filter (fun t => Qeq_bool (key t) s) (x :: xs).
Proof.
  induction xs as [|y ys IH]; [reflexivity|].
  cbn [insert_desc]. destruct (Qle_bool (key y) (key x)) eqn:E; [reflexivity|].
  cbn [List.filter] in *. rewrite IH.
  destruct (Qeq_bool (key x) s) eqn:Ex; [|reflexivity].
  destruct (Qeq_bool (key y) s) eqn:Ey; [|reflexivity].
  exfalso. apply Qeq_bool_iff in Ex, Ey.
  assert (Hle : key y <= key x) by lra.
  apply Qle_bool_iff in Hle. congruence.
Qed.

Lemma sort_desc_stable (s : Q) (xs : list A) :
  List.filter (fun t => Qeq_bool (key t) s) (sort_desc key xs)
  = List.filter (fun t => Qeq_bool (key t) s) xs.
Proof.
  induction xs as [|x xs IH]; [reflexivity|].
  cbn [sort_desc]. rewrite insert_desc_filter. cbn [List.filter].
  now rewrite IH.
Qed.

Lemma firstn_strongly_sorted (R : A -> A -> Prop) (n : nat) (xs : list A) :
  StronglySorted R xs -> StronglySorted R (List.firstn n xs).
Proof.
  intros Hs. revert n. induction Hs as [|x xs Hs IH Hall]; intros [|n]; simpl;
    try constructor.
  - apply IH.
  - rewrite List.Forall_forall in *. intros y Hy. apply Hall.
    rewrite <- (List.firstn_skipn n xs). apply List.in_or_app. now left.
Qed.

Lemma slice_to_strongly_sorted (R : A -> A -> Prop) (n : Z) (xs : list A) :
  StronglySorted R xs -> StronglySorted R (slice_to xs n).
Proof.
  intros Hs. unfold slice_to.
  destruct (0 <=? n)%Z; now apply firstn_strongly_sorted.
Qed.

Lemma slice_to_positive (n : Z) (xs : list A) :
  (0 <= n)%Z -> slice_to xs n = List.firstn (Z.to_nat n) xs.
Proof.
  intros Hn. unfold slice_to.
  destruct (Z.leb_spec 0 n); [reflexivity | lia].
Qed.

Lemma slice_to_negative (n : Z) (xs : list A) :
  (n < 0)%Z ->
  slice_to xs n = List.firstn (List.length xs - Z.to_nat (- n)) xs.
Proof.
  intros Hn. unfold slice_to. destruct (Z.leb_spec 0 n) as [H0|H0]; [lia|].
  f_equal. lia.
Qed.

End SortFacts.

(** ** Recommendations *)

Lemma score_tracks_length (catalog : dict Track) (dominant_emotion : string) :
  List.length (score_tracks catalog dominant_emotion) = List.length catalog.
Proof.
  unfold score_tracks. cbv zeta. apply List.length_map.
Qed.

(** The result of the recommender in terms of its three steps. *)
Lemma recommendations_steps (catalog : dict Track) (mood_emotions : dict Q) (limit : Z)
      (recommendations : list ScoredTrack) :
  get_mood_based_recommendations (Some catalog) mood_emotions limit = Ok recommendations
  <-> exists dominant_emotion,
      max_key mood_emotions = Ok dominant_emotion
      /\ recommendations
         = slice_to (sort_desc score (score_tracks catalog dominant_emotion)) limit.
Proof.
  unfold get_mood_based_recommendations.
  destruct (max_key mood_emotions) as [k|e]; cbn [mbind result_bind bind].
  - split.
    + intros [= <-]. eauto.
    + intros (k' & [= <-] & ->). reflexivity.
  - split; [discriminate | intros (k' & [=] & _)].
Qed.

(** With a non-empty mood dict the recommender answers. *)
Lemma recommendations_total (catalog : dict Track) (mood_emotions : dict Q) (limit : Z) :
  mood_emotions <> [] ->
  exists dominant_emotion,
    max_key mood_emotions = Ok dominant_emotion
    /\ get_mood_based_recommendations (Some catalog) mood_emotions limit
       = Ok (slice_to (sort_desc score (score_tracks catalog dominant_emotion)) limit).
Proof.
  intros Hne. destruct (max_key_total mood_emotions Hne) as (k & _ & Hk & _).
  exists k. split; [exact Hk|]. apply recommendations_steps. eauto.
Qed.

(** C3, as the code has it.  The list returned by the recommender is in
    descending score order; it is the head of a rearrangement of the scored
    catalog in which the entries of any one score keep the order that the
    catalog gives them.  Track ids play no part in the order. *)
Theorem recommendations_sorted_stable (catalog : dict Track) (mood_emotions : dict Q)
        (limit : Z) (recommendations : list ScoredTrack) :
  get_mood_based_recommendations (Some catalog) mood_emotions limit = Ok recommendations ->
  StronglySorted score_desc recommendations
  /\ exists (dominant_emotion : string) (ranked : list ScoredTrack),
      max_key mood_emotions = Ok dominant_emotion
      /\ recommendations = slice_to ranked limit
      /\ Permutation ranked (score_tracks catalog dominant_emotion)
      /\ forall s : Q,
          with_score s ranked = with_score s (score_tracks catalog dominant_emotion).
Proof.
  intros H. apply recommendations_steps in H as (k & Hk & ->). split.
  - apply slice_to_strongly_sorted, sort_desc_sorted.
  - exists k, (sort_desc score (score_tracks catalog k)).
    split; [exact Hk|]. split; [reflexivity|].
    split; [apply sort_desc_perm|]. intros s. apply sort_desc_stable.
Qed.

Lemma recommendations_sorted_stable_witness :
  let recommendations :=
    slice_to (sort_desc score (score_tracks mixed_catalog "joy")) 10 in
  (List.map track_id recommendations = ["sample_track_2"; "track_b"; "track_a"]
   /\ List.map track_id (with_score 0.25 recommendations) = ["track_b"; "track_a"])
  /\ StronglySorted score_desc recommendations
  /\ exists (dominant_emotion : string) (ranked : list ScoredTrack),
      max_key joy_mood = Ok dominant_emotion
      /\ recommendations = slice_to ranked 10
      /\ Permutation ranked (score_tracks mixed_catalog dominant_emotion)
      /\ forall s : Q,
          with_score s ranked = with_score s (score_tracks mixed_catalog dominant_emotion).
Proof.
  cbv zeta. split.
  - split; vm_compute; reflexivity.
  - apply (recommendations_sorted_stable mixed_catalog joy_mood 10).
    reflexivity.
Defined.

(** C3 as stated fails.  For a catalog that lists [track_b] before
    [track_a] and a mood under which both score the same, the result lists
    [track_b] first: equal scores are not in ascending id order. *)
Lemma ties_not_in_id_order :
  exists recommendations : list ScoredTrack,
    get_mood_based_recommendations (Some unordered_catalog) love_mood 10
    = Ok recommendations
    /\ List.map track_id recommendations = ["track_b"; "track_a"]
    /\ Forall (fun t => score t == 0) recommendations
    /\ ~ Sorted score_desc_then_id recommendations.
Proof.
  exists (sort_desc score (score_tracks unordered_catalog "love")).
  split; [vm_compute; reflexivity|]. split; [vm_compute; reflexivity|].
  split; [repeat constructor|].
  intros Hs. vm_compute in Hs.
  inversion Hs as [|a l _ Hhd]; subst.
  inversion Hhd as [|b l' Hrel]; subst.
  destruct Hrel as [Hlt|[_ Hid]]; vm_compute in *; discriminate.
Qed.

(** C6, as the code has it.  For a positive limit and a mood dict that is
    not empty the recommender returns exactly
    [min limit (size of the catalog)] entries, hence never more than
    [limit], in descending score order; with a limit that is at least the
    size of the catalog the answer is the full sorted sequence: every
    scored track of the catalog, once. *)
Theorem recommendations_length (catalog : dict Track) (mood_emotions : dict Q)
        (limit : Z) :
  (0 < limit)%Z ->
  mood_emotions <> [] ->
  exists (dominant_emotion : string) (recommendations : list ScoredTrack),
    max_key mood_emotions = Ok dominant_emotion
    /\ get_mood_based_recommendations (Some catalog) mood_emotions limit
       = Ok recommendations
    /\ List.length recommendations = Nat.min (Z.to_nat limit) (List.length catalog)
    /\ (Z.of_nat (List.length recommendations) <= limit)%Z
    /\ StronglySorted score_desc recommendations
    /\ ((Z.of_nat (List.length catalog) <= limit)%Z ->
        Permutation recommendations (score_tracks catalog dominant_emotion)).
Proof.
  intros Hpos Hne.
  destruct (recommendations_total catalog mood_emotions limit Hne) as (k & Hk & Hrec).
  exists k. eexists. split; [exact Hk|]. split; [exact Hrec|].
  assert (Hlen : List.length (slice_to (sort_desc score (score_tracks catalog k)) limit)
                 = Nat.min (Z.to_nat limit) (List.length catalog)).
  { rewrite slice_to_positive by lia.
    now rewrite List.length_firstn, sort_desc_length, score_tracks_length. }
  split; [exact Hlen|]. split; [rewrite Hlen; lia|].
  split; [apply slice_to_strongly_sorted, sort_desc_sorted|].
  intros Hbig. rewrite slice_to_positive by lia.
  rewrite List.firstn_all2
    by (rewrite sort_desc_length, score_tracks_length; lia).
  apply sort_desc_perm.
Qed.

Lemma joy_mood_nonempty : joy_mood <> [].
Proof. discriminate. Defined.

Lemma recommendations_length_witness :
  exists (dominant_emotion : string) (recommendations : list ScoredTrack),
    max_key joy_mood = Ok dominant_emotion
    /\ get_mood_based_recommendations (Some mixed_catalog) joy_mood 5
       = Ok recommendations
    /\ List.length recommendations = Nat.min (Z.to_nat 5) (List.length mixed_catalog)
    /\ (Z.of_nat (List.length recommendations) <= 5)%Z
    /\ StronglySorted score_desc recommendations
    /\ ((Z.of_nat (List.length mixed_catalog) <= 5)%Z ->
        Permutation recommendations (score_tracks mixed_catalog dominant_emotion)).
Proof.
  apply (recommendations_length mixed_catalog joy_mood 5).
  - reflexivity.
  - exact joy_mood_nonempty.
Defined.

(** C6 as stated fails.  With limit 1 over the two sample tracks and an
    empty mood dict there is no dominant emotion: [max] raises
    [ValueError], no list is returned, and the handler answers 500. *)
Lemma empty_mood_returns_nothing :
  (0 < request_limit empty_mood_request)%Z
  /\ List.length load_music_features = 2%nat
  /\ get_mood_based_recommendations (Some load_music_features)
       (request_mood_emotions empty_mood_request) (request_limit empty_mood_request)
     = Raise ValueError
  /\ recommend_music (Some load_music_features) (Some loaded_embeddings)
       empty_mood_request
     = HttpError 500.
Proof.
  repeat split; reflexivity.
Qed.

(** C9, as the code has it.  With the catalog and the embeddings loaded
    and a mood dict that is not empty, a limit of zero or less is not
    rejected: the tracks are scored and sorted as for any other limit and
    the handler answers 200.  With limit 0 the answer is the empty list;
    with a negative limit it is the sorted list without its last
    [- limit] entries. *)
Theorem nonpositive_limit_slices (catalog : dict Track)
        (embeddings : list (list Q) * list string)
        (request : MusicRecommendationRequest) :
  (request_limit request <= 0)%Z ->
  request_mood_emotions request <> [] ->
  exists dominant_emotion : string,
    max_key (request_mood_emotions request) = Ok dominant_emotion
    /\ let ranked := sort_desc score (score_tracks catalog dominant_emotion) in
       let kept := if (request_limit request =? 0)%Z then []
                   else List.firstn (List.length catalog
                                     - Z.to_nat (- request_limit request)) ranked in
       get_mood_based_recommendations (Some catalog) (request_mood_emotions request)
                                      (request_limit request) = Ok kept
       /\ recommend_music (Some catalog) (Some embeddings) request = Http200 kept.
Proof.
  intros Hlimit Hne.
  destruct (recommendations_total catalog _ (request_limit request) Hne)
    as (k & Hk & Hrec).
  exists k. split; [exact Hk|]. cbv zeta.
  assert (Hkept : slice_to (sort_desc score (score_tracks catalog k)) (request_limit request)
                  = if (request_limit request =? 0)%Z then []
                    else List.firstn (List.length catalog
                                      - Z.to_nat (- request_limit request))
                                     (sort_desc score (score_tracks catalog k))).
  { destruct (Z.eqb_spec (request_limit request) 0) as [->|Hnz]; [reflexivity|].
    rewrite slice_to_negative by lia.
    now rewrite sort_desc_length, score_tracks_length. }
  rewrite <- Hkept. split; [exact Hrec|].
  unfold recommend_music. now rewrite Hrec.
Qed.

Lemma nonpositive_limit_slices_witness :
  exists dominant_emotion : string,
    max_key joy_mood = Ok dominant_emotion
    /\ let ranked := sort_desc score (score_tracks load_music_features dominant_emotion) in
       let kept := List.firstn (2 - 1) ranked in
       get_mood_based_recommendations (Some load_music_features) joy_mood (-1) = Ok kept
       /\ recommend_music (Some load_music_features) (Some loaded_embeddings)
                          (request_with_limit (-1))
          = Http200 kept.
Proof.
  apply (nonpositive_limit_slices load_music_features loaded_embeddings
                                  (request_with_limit (-1))).
  - simpl. lia.
  - exact joy_mood_nonempty.
Defined.

(** C9 as stated fails.  After start-up, with limit 0 and with limit -1
    the handler answers 200 over the sample catalog: an empty list, and the
    one best track. *)
Lemma nonpositive_limit_not_rejected :
  recommend_music (Some load_music_features) (Some loaded_embeddings)
                  (request_with_limit 0) = Http200 []
  /\ exists recommendations : list ScoredTrack,
      recommend_music (Some load_music_features) (Some loaded_embeddings)
                      (request_with_limit (-1))
      = Http200 recommendations
      /\ List.map track_id recommendations = ["sample_track_2"].
Proof.
  split; [vm_compute; reflexivity|].
  eexists. split; vm_compute; reflexivity.
Qed.

(** ** Audio mapping *)

(** The function normalises [unnormalized_emotions]. *)
Lemma audio_features_to_emotions_steps (features : dict Q) :
  audio_features_to_emotions features
  = let emotions := unnormalized_emotions features in
    let total := sum (dict_values emotions) in
    if Qltb 0 total then dict_comp (fun v => v / total) emotions else emotions.
Proof. reflexivity. Qed.

Lemma unnormalized_wf (features : dict Q) : dict_wf (unnormalized_emotions features).
Proof.
  unfold dict_wf, unnormalized_emotions. simpl.
  repeat (constructor; [simpl; intuition discriminate|]). constructor.
Qed.

Lemma unnormalized_total (features : dict Q) :
  sum (dict_values (unnormalized_emotions features))
  == 1 + dict_get features "danceability" 0.5 * 0.3 + dict_get features "energy" 0.5.
Proof.
  unfold unnormalized_emotions, sum. simpl. lra.
Qed.

(** Within the unit range the total is at least one, so the zero-sum case
    does not arise there. *)
Lemma unnormalized_total_in_range (features : dict Q) :
  0 <= dict_get features "energy" 0.5 ->
  0 <= dict_get features "danceability" 0.5 ->
  1 <= sum (dict_values (unnormalized_emotions features)).
Proof.
  intros He Hd. rewrite unnormalized_total. lra.
Qed.

(** C7.  For a descriptor whose valence, energy and danceability (0.5 when
    the field is absent) lie between 0 and 1, the mapper returns values for
    exactly the labels joy, sadness, anger and fear, and they add up to 1
    within 1e-9 (in exact arithmetic they add up to 1). *)
Theorem audio_emotions_sum_to_one (features : dict Q) :
  0 <= dict_get features "valence" 0.5 <= 1 ->
  0 <= dict_get features "energy" 0.5 <= 1 ->
  0 <= dict_get features "danceability" 0.5 <= 1 ->
  dict_keys (audio_features_to_emotions features) = ["joy"; "sadness"; "anger"; "fear"]
  /\ Qabs (sum (dict_values (audio_features_to_emotions features)) - 1) <= 1e-9.
Proof.
  intros _ [He _] [Hd _].
  pose proof (unnormalized_total_in_range features He Hd) as Htotal.
  rewrite audio_features_to_emotions_steps. cbv zeta.
  assert (Hpos : Qltb 0 (sum (dict_values (unnormalized_emotions features))) = true)
    by (apply Qltb_lt; lra).
  rewrite Hpos. split.
  - now rewrite dict_keys_comp by apply unnormalized_wf.
  - rewrite dict_values_comp by apply unnormalized_wf.
    rewrite sum_map_div.
    assert (Hone : sum (dict_values (unnormalized_emotions features))
                   / sum (dict_values (unnormalized_emotions features)) == 1)
      by (field; lra).
    rewrite Hone. vm_compute. discriminate.
Qed.

Lemma audio_emotions_sum_to_one_witness :
  dict_keys (audio_features_to_emotions example_descriptor)
  = ["joy"; "sadness"; "anger"; "fear"]
  /\ Qabs (sum (dict_values (audio_features_to_emotions example_descriptor)) - 1) <= 1e-9.
Proof.
  apply (audio_emotions_sum_to_one example_descriptor);
    split; vm_compute; discriminate.
Defined.

(** C8, as the code has it.  When the unnormalised values add up to 0, the
    guard [total > 0] fails and the mapper returns the unnormalised values
    as they are; there is no uniform fallback. *)
Theorem zero_sum_left_unnormalized (features : dict Q) :
  sum (dict_values (unnormalized_emotions features)) == 0 ->
  audio_features_to_emotions features = unnormalized_emotions features.
Proof.
  intros Hzero. rewrite audio_features_to_emotions_steps. cbv zeta.
  assert (Hb : Qltb 0 (sum (dict_values (unnormalized_emotions features))) = false)
    by (apply Qltb_ge; lra).
  now rewrite Hb.
Qed.

Lemma zero_sum_left_unnormalized_witness :
  audio_features_to_emotions zero_sum_descriptor
  = unnormalized_emotions zero_sum_descriptor.
Proof.
  apply (zero_sum_left_unnormalized zero_sum_descriptor).
  vm_compute. reflexivity.
Defined.

(** C8 as stated fails.  The unnormalised values of [zero_sum_descriptor]
    add up to 0, and the mapper returns 0 for each of the four labels, not
    0.25. *)
Lemma zero_sum_not_uniform :
  sum (dict_values (unnormalized_emotions zero_sum_descriptor)) == 0
  /\ dict_keys (audio_features_to_emotions zero_sum_descriptor)
     = ["joy"; "sadness"; "anger"; "fear"]
  /\ Forall (fun v => v == 0) (dict_values (audio_features_to_emotions zero_sum_descriptor))
  /\ ~ Forall (fun v => v == 0.25)
              (dict_values (audio_features_to_emotions zero_sum_descriptor)).
Proof.
  split; [vm_compute; reflexivity|]. split; [reflexivity|].
  split; [repeat constructor|].
  intros H. inversion H as [|v vs Hv _]; subst.
  vm_compute in Hv. discriminate.
Qed.

(** ** Further properties of the audio mapping *)

Lemma Qdiv_unit (x t : Q) : 0 < t -> 0 <= x <= t -> 0 <= x / t <= 1.
Proof.
  intros Ht [H0 H1]. split.
  - apply Qle_shift_div_l; [exact Ht | lra].
  - apply Qle_shift_div_r; [exact Ht | lra].
Qed.

Lemma Qdiv_le_mono (x y t : Q) : 0 < t -> x <= y -> x / t <= y / t.
Proof.
  intros Ht Hxy. unfold Qdiv. apply Qmult_le_compat_r; [exact Hxy|].
  apply Qlt_le_weak, Qinv_lt_0_compat, Ht.
Qed.

(** The four entries of the result, in both branches of the guard. *)
Lemma audio_emotions_entries (features : dict Q) :
  let valence := dict_get features "valence" 0.5 in
  let energy := dict_get features "energy" 0.5 in
  let danceability := dict_get features "danceability" 0.5 in
  let total := sum (dict_values (unnormalized_emotions features)) in
  audio_features_to_emotions features
  = if Qltb 0 total then
      [("joy", (valence + danceability * 0.3) / total);
       ("sadness", (1 - valence) / total);
       ("anger", energy * 0.7 / total);
       ("fear", energy * 0.3 / total)]
    else
      [("joy", valence + danceability * 0.3); ("sadness", 1 - valence);
       ("anger", energy * 0.7); ("fear", energy * 0.3)].
Proof.
  cbv zeta. rewrite audio_features_to_emotions_steps. cbv zeta.
  destruct (Qltb 0 _); [|reflexivity].
  now rewrite dict_comp_map by apply unnormalized_wf.
Qed.

Lemma audio_emotions_keys (features : dict Q) :
  dict_keys (audio_features_to_emotions features) = ["joy"; "sadness"; "anger"; "fear"].
Proof.
  rewrite audio_emotions_entries. cbv zeta. now destruct (Qltb 0 _).
Qed.

Lemma four_labels_fear (a b c d : Q) :
  dict_find [("joy", a); ("sadness", b); ("anger", c); ("fear", d)] "fear" = Some d.
Proof. reflexivity. Qed.

Lemma four_labels_anger (a b c d : Q) :
  dict_get [("joy", a); ("sadness", b); ("anger", c); ("fear", d)] "anger" 0 = c.
Proof. reflexivity. Qed.

(** X1.  [analyze_audio_mood] answers for every feature dict, whatever its
    keys and values: no exception reaches the handler.  The dominant
    emotion is one of joy, sadness, anger and fear. *)
Theorem analyze_audio_mood_total (audio_features : dict Q) :
  exists r : AudioMoodResponse,
    analyze_audio_mood audio_features = Ok r
    /\ audio_emotions_of r = audio_features_to_emotions audio_features
    /\ List.In (audio_dominant_emotion r) ["joy"; "sadness"; "anger"; "fear"]
    /\ dict_find (audio_emotions_of r) (audio_dominant_emotion r)
       = Some (audio_confidence r).
Proof.
  assert (Hne : audio_features_to_emotions audio_features <> []).
  { intros Hnil. pose proof (audio_emotions_keys audio_features) as Hk.
    rewrite Hnil in Hk. discriminate. }
  destruct (max_key_total _ Hne) as (k & v & Hmax & Hget).
  eexists. unfold analyze_audio_mood. cbv zeta.
  rewrite Hmax. cbn [mbind result_bind bind].
  rewrite Hget. cbn [mbind result_bind bind].
  destruct (max_key_first_maximum _ k v Hmax Hget) as (Hfind & _).
  assert (Hin : List.In k ["joy"; "sadness"; "anger"; "fear"]).
  { rewrite <- (audio_emotions_keys audio_features). apply dict_find_key. eauto. }
  split; [reflexivity|]. cbn [audio_emotions_of audio_dominant_emotion audio_confidence].
  split; [reflexivity|]. split; [exact Hin | exact Hfind].
Qed.

(** X2.  With an energy that is not negative the audio endpoint never
    reports fear: anger is listed before fear and its value, 0.7 of the
    energy against 0.3, is never the smaller one.  The dominant emotion is
    joy, sadness or anger. *)
Theorem audio_dominant_never_fear (audio_features : dict Q) (r : AudioMoodResponse) :
  0 <= dict_get audio_features "energy" 0.5 ->
  analyze_audio_mood audio_features = Ok r ->
  List.In (audio_dominant_emotion r) ["joy"; "sadness"; "anger"].
Proof.
  intros He Hr.
  apply audio_dominant_first_maximum in Hr as (Hem & Hfirst).
  rewrite Hem in Hfirst.
  destruct Hfirst as (Hfind & _ & before & after & Hkeys & Hlt).
  assert (Hin : List.In (audio_dominant_emotion r) ["joy"; "sadness"; "anger"; "fear"]).
  { rewrite <- (audio_emotions_keys audio_features). apply dict_find_key. eauto. }
  destruct Hin as [<-|[<-|[<-|[Hfear|[]]]]]; cbn; auto.
  exfalso. rewrite <- Hfear in *. clear Hfear.
  rewrite audio_emotions_keys in Hkeys.
  assert (Hanger : List.In "anger" before).
  { destruct before as [|b1 [|b2 [|b3 [|b4 before]]]]; simpl in Hkeys;
      try discriminate.
    - injection Hkeys as <- <- <-. simpl. auto.
    - injection Hkeys as _ _ _ _ Habs. destruct before; discriminate. }
  specialize (Hlt "anger" Hanger).
  rewrite audio_emotions_entries in Hfind, Hlt. cbv zeta in Hfind, Hlt.
  set (total := sum _) in *.
  destruct (Qltb 0 total) eqn:Ht.
  - apply Qltb_lt in Ht.
    rewrite four_labels_fear in Hfind. rewrite four_labels_anger in Hlt.
    injection Hfind as Hc. rewrite <- Hc in Hlt.
    assert (Hle : dict_get audio_features "energy" 0.5 * 0.3 / total
                  <= dict_get audio_features "energy" 0.5 * 0.7 / total)
      by (apply Qdiv_le_mono; [exact Ht | lra]).
    lra.
  - rewrite four_labels_fear in Hfind. rewrite four_labels_anger in Hlt.
    injection Hfind as Hc. rewrite <- Hc in Hlt. lra.
Qed.

Lemma audio_dominant_never_fear_witness :
  List.In (audio_dominant_emotion example_audio_response) ["joy"; "sadness"; "anger"].
Proof.
  apply (audio_dominant_never_fear example_descriptor example_audio_response).
  - vm_compute. discriminate.
  - vm_compute. reflexivity.
Defined.

(** X3.  For a descriptor with valence, energy and danceability between 0
    and 1 every value the mapper returns lies between 0 and 1. *)
Theorem audio_emotions_in_unit_range (features : dict Q) :
  0 <= dict_get features "valence" 0.5 <= 1 ->
  0 <= dict_get features "energy" 0.5 <= 1 ->
  0 <= dict_get features "danceability" 0.5 <= 1 ->
  Forall (fun v => 0 <= v <= 1) (dict_values (audio_features_to_emotions features)).
Proof.
  intros Hv He Hd.
  pose proof (unnormalized_total_in_range features (proj1 He) (proj1 Hd)) as H1.
  pose proof (unnormalized_total features) as Htot.
  rewrite audio_emotions_entries. cbv zeta.
  set (total := sum _) in *.
  assert (Hpos : Qltb 0 total = true) by (apply Qltb_lt; lra).
  rewrite Hpos. cbn.
  repeat constructor; apply Qdiv_unit; lra.
Qed.

Lemma audio_emotions_in_unit_range_witness :
  Forall (fun v => 0 <= v <= 1)
         (dict_values (audio_features_to_emotions example_descriptor)).
Proof.
  apply (audio_emotions_in_unit_range example_descriptor);
    split; vm_compute; discriminate.
Defined.

(** ** Feature extraction *)

(** The dict that the extraction builds, entry by entry. *)
Lemma extract_entries (m : LibrosaMeasurements) :
  extract_audio_features_librosa m
  = Ok ([("tempo", beat_tempo m);
         ("spectral_centroid", spectral_centroid_mean m);
         ("zero_crossing_rate", zero_crossing_rate_mean m)]
        ++ List.map (fun i => (mfcc_key i, mfcc_mean m i)) (List.seq 0 13)
        ++ [("rhythm", beat_frames_std m);
            ("energy", rms_mean m);
            ("valence", min2 1 (max2 0 (spectral_centroid_mean m / 3000 * 0.5 + 0.5)));
            ("arousal", min2 1 (max2 0 (rms_mean m * 2)))]).
Proof. reflexivity. Qed.






(** The total is one whenever the guard passes. *)
Lemma audio_total_one (features : dict Q) :
  0 < sum (dict_values (unnormalized_emotions features)) ->
  sum (dict_values (audio_features_to_emotions features)) == 1.
Proof.
  intros Hpos. rewrite audio_features_to_emotions_steps. cbv zeta.
  apply Qltb_lt in Hpos as Hb. rewrite Hb.
  rewrite dict_values_comp by apply unnormalized_wf.
  rewrite sum_map_div. field. lra.
Qed.

(** X6.  Extraction followed by the emotion mapping.  The extracted dict
    has no danceability, so the mapper works with its default 0.5, and its
    energy is the mean RMS; when that is not negative the mapped values add
    up to 1. *)
Theorem extract_then_map (m : LibrosaMeasurements) (features : dict Q) :
  0 <= rms_mean m ->
  extract_audio_features_librosa m = Ok features ->
  dict_get features "danceability" 0.5 = 0.5
  /\ dict_get features "energy" 0.5 = rms_mean m
  /\ sum (dict_values (audio_features_to_emotions features)) == 1.
Proof.
  intros He. rewrite extract_entries. intros [= <-].
  split; [reflexivity|]. split; [reflexivity|].
  apply audio_total_one. rewrite unnormalized_total.
  change (dict_get _ "danceability" 0.5) with 0.5.
  change (dict_get _ "energy" 0.5) with (rms_mean m). lra.
Qed.

Lemma extract_then_map_witness :
  dict_get example_features "danceability" 0.5 = 0.5
  /\ dict_get example_features "energy" 0.5 = rms_mean example_measurements
  /\ sum (dict_values (audio_features_to_emotions example_features)) == 1.
Proof.
  apply (extract_then_map example_measurements example_features).
  - vm_compute. discriminate.
  - vm_compute. reflexivity.
Defined.

(** ** Further properties of the sentiment fusion *)

Section BoostFacts.

(** On a dict an augmented assignment rewrites the one entry of its key. *)
Lemma dict_aug_map (d : dict Q) (k : string) (f : Q -> Q) :
  dict_wf d ->
  dict_aug d k f
  = List.map (fun kv => (fst kv, if String.eqb (fst kv) k then f (snd kv) else snd kv)) d.
Proof.
  unfold dict_wf. induction d as [|[k' v'] d IH]; intros Hwf; [reflexivity|].
  inversion Hwf as [|? ? Hk' Hd]; subst. specialize (IH Hd).
  unfold dict_aug in *. cbn [dict_find dict_setitem List.map fst snd].
  destruct (String.eqb_spec k' k) as [->|Hne].
  - cbn [dict_setitem]. rewrite ?String.eqb_refl. f_equal.
    clear IH Hwf Hd. induction d as [|[k2 v2] d IHd]; [reflexivity|].
    cbn [List.map fst snd]. cbn in Hk'.
    destruct (String.eqb_spec k2 k) as [->|_]; [tauto|].
    f_equal. apply IHd. tauto.
  - destruct (dict_find d k) as [v|] eqn:Hfind.
    + cbn [dict_setitem]. destruct (String.eqb_spec k' k); [contradiction|].
      now rewrite IH.
    + now rewrite <- IH.
Qed.

(** The guard [emotion in combined] does not change the step. *)
Lemma boost_step (c : dict Q) (l : string) :
  (if dict_contains c l then dict_aug c l (fun v => v * 1.2) else c)
  = dict_aug c l (fun v => v * 1.2).
Proof.
  unfold dict_contains, dict_aug. now destruct (dict_find c l).
Qed.

Lemma boost_map (labels : list string) (d : dict Q) :
  List.NoDup labels -> dict_wf d -> boost d labels = List.map (boosted labels) d.
Proof.
  unfold boost. intros Hnd. revert d.
  induction Hnd as [|l labels Hl Hnd IH]; intros d Hwf; cbn [List.fold_left].
  - unfold boosted, is_label. cbn.
    induction d as [|[k v] d IHd]; [reflexivity|].
    cbn. f_equal. apply IHd. now inversion Hwf.
  - rewrite boost_step, IH
      by (unfold dict_wf; now rewrite dict_keys_aug).
    rewrite dict_aug_map by exact Hwf. rewrite List.map_map.
    apply List.map_ext. intros [k v]. unfold boosted, is_label.
    cbn [fst snd List.existsb].
    destruct (String.eqb_spec k l) as [->|Hne]; [|reflexivity].
    cbn [orb].
    assert (Hnot : List.existsb (String.eqb l) labels = false).
    { destruct (List.existsb (String.eqb l) labels) eqn:E; [|reflexivity].
      apply List.existsb_exists in E as (x & Hx & Heq).
      apply String.eqb_eq in Heq. subst x. contradiction. }
    now rewrite Hnot.
Qed.

Lemma adjust_map (emotions sentiment : dict Q) :
  dict_wf emotions ->
  adjust_by_sentiment emotions sentiment
  = List.map (boosted (boosted_labels sentiment)) emotions.
Proof.
  intros Hwf. unfold adjust_by_sentiment, boosted_labels. cbv zeta.
  assert (Hnd1 : List.NoDup ["joy"; "love"; "optimism"])
    by (repeat (constructor; [cbn; intuition discriminate|]); constructor).
  assert (Hnd2 : List.NoDup ["sadness"; "anger"; "fear"])
    by (repeat (constructor; [cbn; intuition discriminate|]); constructor).
  destruct (Qltb 0.5 (dict_get sentiment "POSITIVE" 0)); [now apply boost_map|].
  destruct (Qltb 0.5 (dict_get sentiment "NEGATIVE" 0)); [now apply boost_map|].
  symmetry. rewrite <- (List.map_id emotions) at 2.
  apply List.map_ext. now intros [k v].
Qed.

(** Lookup in a dict whose values were rewritten entry by entry. *)
Lemma dict_find_map (h : string -> Q -> Q) (d : dict Q) (k : string) :
  dict_find (List.map (fun kv => (fst kv, h (fst kv) (snd kv))) d) k
  = option_map (h k) (dict_find d k).
Proof.
  induction d as [|[k' v'] d IH]; [reflexivity|].
  cbn [List.map dict_find fst snd].
  destruct (String.eqb_spec k' k) as [->|Hne]; [reflexivity | exact IH].
Qed.

Lemma sum_upper_member (xs : list Q) (x : Q) :
  Forall (fun v => 0 <= v) xs -> List.In x xs -> 0 <= sum xs /\ x <= sum xs.
Proof.
  induction 1 as [|y ys Hy Hys IH]; intros Hin; [destruct Hin|].
  rewrite sum_cons.
  assert (H0 : 0 <= sum ys).
  { clear IH Hin. induction Hys as [|z zs Hz _ IHz].
    - unfold sum. cbn. lra.
    - rewrite sum_cons. lra. }
  destruct Hin as [->|Hin]; [lra|]. specialize (IH Hin). lra.
Qed.

Lemma boosted_nonneg (labels : list string) (d : dict Q) :
  Forall (fun v => 0 <= v) (dict_values d) ->
  Forall (fun v => 0 <= v) (dict_values (List.map (boosted labels) d)).
Proof.
  induction d as [|[k v] d IH]; intros Hnn; [constructor|].
  change (dict_values ((k, v) :: d)) with (v :: dict_values d) in *.
  change (dict_values (List.map (boosted labels) ((k, v) :: d)))
    with ((if is_label labels k then v * 1.2 else v)
            :: dict_values (List.map (boosted labels) d)).
  inversion Hnn as [|? ? Hv Hd]; subst.
  constructor; [|now apply IH].
  destruct (is_label labels k); lra.
Qed.

End BoostFacts.

Lemma combine_lookup (emotions sentiment : dict Q) (k : string) :
  dict_wf emotions ->
  0 < sum (dict_values (adjust_by_sentiment emotions sentiment)) ->
  dict_find (combine_emotion_sentiment emotions sentiment) k
  = option_map
      (fun v => (if is_label (boosted_labels sentiment) k then v * 1.2 else v)
                / sum (dict_values (adjust_by_sentiment emotions sentiment)))
      (dict_find emotions k).
Proof.
  intros Hwf Hpos. unfold combine_emotion_sentiment. cbv zeta.
  apply Qltb_lt in Hpos as Hb. rewrite Hb.
  rewrite dict_comp_map by now apply adjust_wf.
  set (total := sum _).
  rewrite (dict_find_map (fun _ v => v / total)).
  rewrite adjust_map by exact Hwf. unfold boosted.
  rewrite (dict_find_map
             (fun k v => if is_label (boosted_labels sentiment) k then v * 1.2 else v)).
  now destruct (dict_find emotions k).
Qed.

(** X7.  What the fusion does to one label.  With a positive total [t] of
    the boosted map, the value returned for a label of the input is its
    input value, times 1.2 if the label is in the group that the sentiment
    selects, divided by [t]; a label that the input lacks is absent. *)
Theorem fusion_lookup (emotions sentiment : dict Q) (k : string) :
  dict_wf emotions ->
  0 < sum (dict_values (adjust_by_sentiment emotions sentiment)) ->
  let t := sum (dict_values (adjust_by_sentiment emotions sentiment)) in
  let group :=
    if Qltb 0.5 (dict_get sentiment "POSITIVE" 0) then ["joy"; "love"; "optimism"]
    else if Qltb 0.5 (dict_get sentiment "NEGATIVE" 0) then ["sadness"; "anger"; "fear"]
    else [] in
  dict_find (combine_emotion_sentiment emotions sentiment) k
  = match dict_find emotions k with
    | Some v => Some ((if is_label group k then v * 1.2 else v) / t)
    | None => None
    end.
Proof.
  intros Hwf Hpos. cbv zeta.
  rewrite combine_lookup by assumption.
  unfold boosted_labels. now destruct (dict_find emotions k).
Qed.

Lemma fusion_lookup_witness :
  dict_find (combine_emotion_sentiment example_emotions example_sentiment) "joy"
  = Some (0.4 * 1.2
          / sum (dict_values (adjust_by_sentiment example_emotions example_sentiment))).
Proof.
  apply (fusion_lookup example_emotions example_sentiment "joy").
  - exact example_emotions_wf.
  - vm_compute. reflexivity.
Defined.

(** Lookup in the boosted working map. *)
Lemma adjust_lookup (emotions sentiment : dict Q) (k : string) :
  dict_wf emotions ->
  dict_find (adjust_by_sentiment emotions sentiment) k
  = option_map (fun v => if is_label (boosted_labels sentiment) k then v * 1.2 else v)
               (dict_find emotions k).
Proof.
  intros Hwf. rewrite adjust_map by exact Hwf. unfold boosted.
  apply (dict_find_map
           (fun k v => if is_label (boosted_labels sentiment) k then v * 1.2 else v)).
Qed.

(** X8.  The fusion keeps the order of two labels unless it boosts only the
    smaller one.  For an input with nonnegative values and two labels with
    values [v2 <= v1], where the first label is boosted whenever the second
    is, the fused value of the second label is at most that of the first. *)
Theorem fusion_keeps_order (emotions sentiment : dict Q) (k1 k2 : string) (v1 v2 : Q) :
  dict_wf emotions ->
  Forall (fun x => 0 <= x) (dict_values emotions) ->
  dict_find emotions k1 = Some v1 ->
  dict_find emotions k2 = Some v2 ->
  v2 <= v1 ->
  (is_label (boosted_labels sentiment) k2 = true ->
   is_label (boosted_labels sentiment) k1 = true) ->
  exists w1 w2 : Q,
    dict_find (combine_emotion_sentiment emotions sentiment) k1 = Some w1
    /\ dict_find (combine_emotion_sentiment emotions sentiment) k2 = Some w2
    /\ w2 <= w1.
Proof.
  intros Hwf Hnn Hf1 Hf2 Hle Hgroup.
  assert (Hv2 : 0 <= v2).
  { rewrite List.Forall_forall in Hnn. apply Hnn.
    apply dict_find_In in Hf2. unfold dict_values.
    change v2 with (snd (k2, v2)). now apply List.in_map. }
  assert (Hboost :
            (if is_label (boosted_labels sentiment) k2 then v2 * 1.2 else v2)
            <= (if is_label (boosted_labels sentiment) k1 then v1 * 1.2 else v1)).
  { destruct (is_label (boosted_labels sentiment) k2).
    - rewrite (Hgroup eq_refl). lra.
    - destruct (is_label (boosted_labels sentiment) k1); lra. }
  destruct (Qltb 0 (sum (dict_values (adjust_by_sentiment emotions sentiment)))) eqn:Ht.
  - apply Qltb_lt in Ht. do 2 eexists.
    rewrite !combine_lookup by assumption. rewrite Hf1, Hf2. cbn [option_map].
    split; [reflexivity|]. split; [reflexivity|].
    now apply Qdiv_le_mono.
  - do 2 eexists. unfold combine_emotion_sentiment. cbv zeta. rewrite Ht.
    rewrite !adjust_lookup by exact Hwf. rewrite Hf1, Hf2. cbn [option_map].
    split; [reflexivity|]. split; [reflexivity | exact Hboost].
Qed.

Lemma fusion_keeps_order_witness :
  exists w1 w2 : Q,
    dict_find (combine_emotion_sentiment example_emotions example_sentiment) "joy"
    = Some w1
    /\ dict_find (combine_emotion_sentiment example_emotions example_sentiment) "sadness"
       = Some w2
    /\ w2 <= w1.
Proof.
  apply (fusion_keeps_order example_emotions example_sentiment "joy" "sadness" 0.4 0.3).
  - exact example_emotions_wf.
  - repeat constructor; vm_compute; discriminate.
  - reflexivity.
  - reflexivity.
  - vm_compute. discriminate.
  - reflexivity.
Defined.

(** The values of the result when the guard passes. *)
Lemma combine_values (emotions sentiment : dict Q) :
  dict_wf emotions ->
  0 < sum (dict_values (adjust_by_sentiment emotions sentiment)) ->
  dict_values (combine_emotion_sentiment emotions sentiment)
  = List.map (fun v => v / sum (dict_values (adjust_by_sentiment emotions sentiment)))
             (dict_values (adjust_by_sentiment emotions sentiment)).
Proof.
  intros Hwf Hpos. unfold combine_emotion_sentiment. cbv zeta.
  apply Qltb_lt in Hpos as Hb. rewrite Hb.
  apply dict_values_comp. now apply adjust_wf.
Qed.

Lemma combine_values_unit (emotions sentiment : dict Q) :
  dict_wf emotions ->
  Forall (fun v => 0 <= v) (dict_values emotions) ->
  0 < sum (dict_values (adjust_by_sentiment emotions sentiment)) ->
  Forall (fun v => 0 <= v <= 1)
         (dict_values (combine_emotion_sentiment emotions sentiment)).
Proof.
  intros Hwf Hnn Hpos. rewrite combine_values by assumption.
  assert (Hadj : Forall (fun v => 0 <= v)
                        (dict_values (adjust_by_sentiment emotions sentiment)))
    by (rewrite adjust_map by exact Hwf; now apply boosted_nonneg).
  set (t := sum _) in *.
  rewrite List.Forall_forall. intros x Hx.
  apply List.in_map_iff in Hx as (y & <- & Hy).
  destruct (sum_upper_member _ y Hadj Hy) as [_ Hle].
  rewrite List.Forall_forall in Hadj. apply Qdiv_unit; [exact Hpos|].
  split; [now apply Hadj | exact Hle].
Qed.

(** X9.  For an input with nonnegative values whose boosted map has a
    positive total, every value the fusion returns lies between 0 and 1. *)
Theorem fusion_values_in_unit_range (emotions sentiment : dict Q) :
  dict_wf emotions ->
  Forall (fun v => 0 <= v) (dict_values emotions) ->
  0 < sum (dict_values (adjust_by_sentiment emotions sentiment)) ->
  forall k v,
    dict_find (combine_emotion_sentiment emotions sentiment) k = Some v ->
    0 <= v <= 1.
Proof.
  intros Hwf Hnn Hpos k v Hfind.
  pose proof (combine_values_unit emotions sentiment Hwf Hnn Hpos) as Hall.
  rewrite List.Forall_forall in Hall. apply Hall.
  apply dict_find_In in Hfind. unfold dict_values.
  change v with (snd (k, v)). now apply List.in_map.
Qed.

Lemma fusion_values_in_unit_range_witness :
  0 <= dict_get (combine_emotion_sentiment example_emotions example_sentiment) "joy" 0
  <= 1.
Proof.
  apply (fusion_values_in_unit_range example_emotions example_sentiment)
    with (k := "joy").
  - exact example_emotions_wf.
  - repeat constructor; vm_compute; discriminate.
  - vm_compute. reflexivity.
  - vm_compute. reflexivity.
Defined.

(** X10.  A distribution that already adds up to 1 passes through the
    fusion unchanged in value when the sentiment is neither positive nor
    negative beyond 0.5. *)
Theorem fusion_neutral_identity (emotions sentiment : dict Q) (k : string) (v : Q) :
  dict_wf emotions ->
  dict_get sentiment "POSITIVE" 0 <= 0.5 ->
  dict_get sentiment "NEGATIVE" 0 <= 0.5 ->
  sum (dict_values emotions) == 1 ->
  dict_find emotions k = Some v ->
  exists v' : Q,
    dict_find (combine_emotion_sentiment emotions sentiment) k = Some v' /\ v' == v.
Proof.
  intros Hwf Hp Hn Hsum Hfind.
  apply Qltb_ge in Hp, Hn.
  assert (Hadj : adjust_by_sentiment emotions sentiment = emotions)
    by (unfold adjust_by_sentiment; cbv zeta; now rewrite Hp, Hn).
  assert (Hlab : boosted_labels sentiment = [])
    by (unfold boosted_labels; now rewrite Hp, Hn).
  eexists. rewrite combine_lookup; [| exact Hwf | rewrite Hadj; lra].
  rewrite Hfind, Hadj, Hlab. cbn [option_map is_label List.existsb].
  split; [reflexivity|]. rewrite Hsum. field.
Qed.

Lemma fusion_neutral_identity_witness :
  exists v' : Q,
    dict_find (combine_emotion_sentiment example_emotions []) "joy" = Some v'
    /\ v' == 0.4.
Proof.
  apply (fusion_neutral_identity example_emotions [] "joy" 0.4).
  - exact example_emotions_wf.
  - vm_compute. discriminate.
  - vm_compute. discriminate.
  - vm_compute. reflexivity.
  - reflexivity.
Defined.

(** ** Further properties of the mood score and the text endpoint *)

Lemma base_score_bounds (emotion : string) : 2 <= base_score_table emotion <= 9.
Proof.
  unfold base_score_table.
  repeat match goal with
         | |- context [String.eqb emotion ?a] => destruct (String.eqb emotion a)
         end; lra.
Qed.

(** For a confidence between 0 and 1 the clamp changes nothing. *)
Lemma mood_score_linear (emotion : string) (confidence : Q) :
  0 <= confidence <= 1 ->
  emotion_to_mood_score emotion confidence
  == base_score_table emotion + (confidence - 0.5) * 2.
Proof.
  intros Hc. unfold emotion_to_mood_score. cbv zeta.
  rewrite emotion_scores_table.
  pose proof (base_score_bounds emotion) as Hb.
  unfold max2, min2. qltb_cases; lra.
Qed.

(** X11.  The mood score never decreases when the confidence grows, for
    any label and any two confidences. *)
Theorem mood_score_monotone (emotion : string) (c1 c2 : Q) :
  c1 <= c2 ->
  emotion_to_mood_score emotion c1 <= emotion_to_mood_score emotion c2.
Proof.
  intros Hle. unfold emotion_to_mood_score. cbv zeta.
  generalize (dict_get emotion_scores emotion 5). intros b.
  unfold max2, min2. qltb_cases; lra.
Qed.

Lemma mood_score_monotone_witness :
  emotion_to_mood_score "sadness" 0.2 <= emotion_to_mood_score "sadness" 0.9.
Proof.
  apply (mood_score_monotone "sadness" 0.2 0.9). vm_compute. discriminate.
Defined.

(** X12.  For a confidence between 0 and 1 the clamp is never active: the
    mood score is exactly [base + (confidence - 0.5) * 2], within one point
    of the base score of the label, and so between 1 (anger or fear at
    confidence 0) and 10 (joy at confidence 1). *)
Theorem mood_score_within_one_of_base (emotion : string) (confidence : Q) :
  0 <= confidence <= 1 ->
  emotion_to_mood_score emotion confidence
  == dict_get emotion_scores emotion 5 + (confidence - 0.5) * 2
  /\ dict_get emotion_scores emotion 5 - 1 <= emotion_to_mood_score emotion confidence
     <= dict_get emotion_scores emotion 5 + 1
  /\ emotion_to_mood_score "anger" 0 == 1
  /\ emotion_to_mood_score "joy" 1 == 10.
Proof.
  intros Hc. pose proof (mood_score_linear emotion confidence Hc) as Hlin.
  rewrite emotion_scores_table. split; [exact Hlin|].
  split; [rewrite Hlin; lra|]. split; vm_compute; reflexivity.
Qed.

Lemma mood_score_within_one_of_base_witness :
  emotion_to_mood_score "love" 0.25
  == dict_get emotion_scores "love" 5 + (0.25 - 0.5) * 2
  /\ dict_get emotion_scores "love" 5 - 1 <= emotion_to_mood_score "love" 0.25
     <= dict_get emotion_scores "love" 5 + 1
  /\ emotion_to_mood_score "anger" 0 == 1
  /\ emotion_to_mood_score "joy" 1 == 10.
Proof.
  apply (mood_score_within_one_of_base "love" 0.25).
  split; vm_compute; discriminate.
Defined.

(** X13.  An empty emotion dict makes the text endpoint fail, whatever the
    sentiment: the fused dict is empty and [max] raises [ValueError]. *)
Theorem analyze_text_mood_empty (sentiment_scores : dict Q) :
  combine_emotion_sentiment [] sentiment_scores = []
  /\ analyze_text_mood [] sentiment_scores = Raise ValueError.
Proof.
  assert (Hc : combine_emotion_sentiment [] sentiment_scores = []).
  { unfold combine_emotion_sentiment, adjust_by_sentiment. cbv zeta.
    destruct (Qltb 0.5 (dict_get sentiment_scores "POSITIVE" 0));
      [|destruct (Qltb 0.5 (dict_get sentiment_scores "NEGATIVE" 0))];
      reflexivity. }
  split; [exact Hc|]. unfold analyze_text_mood. cbv zeta. now rewrite Hc.
Qed.

(** X14.  The text endpoint on a usable input.  For an emotion dict with
    nonnegative values whose boosted map has a positive total the endpoint
    answers; the confidence lies between 0 and 1 and the mood score is the
    unclamped [base + (confidence - 0.5) * 2], between 1 and 10. *)
Theorem analyze_text_mood_response (emotions sentiment_scores : dict Q) :
  dict_wf emotions ->
  Forall (fun v => 0 <= v) (dict_values emotions) ->
  0 < sum (dict_values (adjust_by_sentiment emotions sentiment_scores)) ->
  exists r : MoodAnalysisResponse,
    analyze_text_mood emotions sentiment_scores = Ok r
    /\ 0 <= mood_confidence r <= 1
    /\ mood_score r
       == dict_get emotion_scores (mood_dominant_emotion r) 5
          + (mood_confidence r - 0.5) * 2
    /\ 1 <= mood_score r <= 10.
Proof.
  intros Hwf Hnn Hpos.
  set (fused := combine_emotion_sentiment emotions sentiment_scores).
  assert (Hne : fused <> []).
  { intros Hnil. pose proof (combine_total_one emotions sentiment_scores Hwf Hpos) as H1.
    fold fused in H1. rewrite Hnil in H1. vm_compute in H1. discriminate. }
  destruct (max_key_total fused Hne) as (k & v & Hmax & Hget).
  destruct (max_key_first_maximum fused k v Hmax Hget) as (Hfind & _).
  pose proof (combine_values_unit emotions sentiment_scores Hwf Hnn Hpos) as Hunit.
  fold fused in Hunit. rewrite List.Forall_forall in Hunit.
  assert (Hv : 0 <= v <= 1).
  { apply Hunit. apply dict_find_In in Hfind. unfold dict_values.
    change v with (snd (k, v)). now apply List.in_map. }
  pose proof (mood_score_linear k v Hv) as Hlin.
  rewrite <- emotion_scores_table in Hlin.
  pose proof (base_score_bounds k) as Hbase.
  rewrite <- emotion_scores_table in Hbase.
  eexists. unfold analyze_text_mood. cbv zeta. fold fused.
  rewrite Hmax. cbn [mbind result_bind bind].
  rewrite Hget. cbn [mbind result_bind bind].
  split; [reflexivity|].
  cbn [mood_confidence mood_dominant_emotion mood_score].
  split; [exact Hv|]. split; [exact Hlin|].
  rewrite Hlin. lra.
Qed.

Lemma analyze_text_mood_response_witness :
  exists r : MoodAnalysisResponse,
    analyze_text_mood example_emotions example_sentiment = Ok r
    /\ 0 <= mood_confidence r <= 1
    /\ mood_score r
       == dict_get emotion_scores (mood_dominant_emotion r) 5
          + (mood_confidence r - 0.5) * 2
    /\ 1 <= mood_score r <= 10.
Proof.
  apply (analyze_text_mood_response example_emotions example_sentiment).
  - exact example_emotions_wf.
  - repeat constructor; vm_compute; discriminate.
  - vm_compute. reflexivity.
Defined.

(** ** Further properties of the recommender *)

Lemma score_tracks_ids (catalog : dict Track) (dominant_emotion : string) :
  List.map track_id (score_tracks catalog dominant_emotion) = dict_keys catalog.
Proof.
  unfold score_tracks, dict_keys. cbv zeta. rewrite List.map_map.
  apply List.map_ext. now intros [k t].
Qed.

Lemma firstn_incl {A : Type} (n : nat) (xs : list A) (x : A) :
  List.In x (List.firstn n xs) -> List.In x xs.
Proof.
  intros Hin. rewrite <- (List.firstn_skipn n xs). apply List.in_or_app. now left.
Qed.

Lemma firstn_NoDup {A : Type} (n : nat) (xs : list A) :
  List.NoDup xs -> List.NoDup (List.firstn n xs).
Proof.
  intros Hnd. rewrite <- (List.firstn_skipn n xs) in Hnd.
  now apply List.NoDup_app_remove_r in Hnd.
Qed.

Lemma slice_to_firstn {A : Type} (xs : list A) (n : Z) :
  exists m : nat, slice_to xs n = List.firstn m xs.
Proof.
  unfold slice_to. destruct (0 <=? n)%Z; eauto.
Qed.

(** X15.  Raising the limit only appends: for limits [0 <= n <= m] the
    answer for [n] is the first [n] entries of the answer for [m], over the
    same catalog and mood. *)
Theorem recommendations_prefix (catalog : dict Track) (mood_emotions : dict Q)
        (n m : Z) (shorter longer : list ScoredTrack) :
  (0 <= n <= m)%Z ->
  get_mood_based_recommendations (Some catalog) mood_emotions n = Ok shorter ->
  get_mood_based_recommendations (Some catalog) mood_emotions m = Ok longer ->
  shorter = List.firstn (Z.to_nat n) longer.
Proof.
  intros Hnm Hs Hl.
  apply recommendations_steps in Hs as (k & Hk & ->).
  apply recommendations_steps in Hl as (k' & Hk' & ->).
  rewrite Hk in Hk'. injection Hk' as <-.
  rewrite !slice_to_positive by lia.
  rewrite List.firstn_firstn. f_equal. lia.
Qed.

Lemma recommendations_prefix_witness :
  List.firstn 1 (sort_desc score (score_tracks load_music_features "joy"))
  = List.firstn (Z.to_nat 1)
                (List.firstn 2 (sort_desc score (score_tracks load_music_features "joy"))).
Proof.
  apply (recommendations_prefix load_music_features joy_mood 1 2).
  - lia.
  - reflexivity.
  - reflexivity.
Defined.

(** X16.  Every recommendation is the scored form of a catalog entry, and
    no track is recommended twice: the track ids of the answer are distinct
    keys of the catalog, for every limit. *)
Theorem recommendations_from_catalog (catalog : dict Track) (mood_emotions : dict Q)
        (limit : Z) (recommendations : list ScoredTrack) :
  dict_wf catalog ->
  get_mood_based_recommendations (Some catalog) mood_emotions limit = Ok recommendations ->
  List.NoDup (List.map track_id recommendations)
  /\ forall s : ScoredTrack,
      List.In s recommendations ->
      exists track_data : Track,
        List.In (track_id s, track_data) catalog
        /\ scored_title s = title track_data
        /\ scored_artist s = artist track_data.
Proof.
  intros Hwf H. apply recommendations_steps in H as (k & Hk & ->).
  destruct (slice_to_firstn (sort_desc score (score_tracks catalog k)) limit)
    as [m ->].
  split.
  - rewrite <- List.firstn_map. apply firstn_NoDup.
    apply (Permutation_NoDup (l := List.map track_id (score_tracks catalog k))).
    + apply Permutation_map, Permutation_sym, sort_desc_perm.
    + rewrite score_tracks_ids. exact Hwf.
  - intros s Hs. apply firstn_incl in Hs.
    apply (Permutation_in _ (sort_desc_perm score _)) in Hs.
    apply score_tracks_elements in Hs as (tid & t & Hin & ->).
    exists t. cbn. auto.
Qed.

Lemma load_music_features_wf : dict_wf load_music_features.
Proof.
  unfold dict_wf. cbn.
  repeat (constructor; [cbn; intuition discriminate|]). constructor.
Defined.

Lemma recommendations_from_catalog_witness :
  List.NoDup (List.map track_id
                (slice_to (sort_desc score (score_tracks load_music_features "joy")) 5)).
Proof.
  apply (recommendations_from_catalog load_music_features joy_mood 5).
  - exact load_music_features_wf.
  - reflexivity.
Defined.

Lemma target_tags_at_most_three (dominant_emotion : string) :
  (List.length (dict_get emotion_to_mood_tags dominant_emotion ["neutral"]) <= 3)%nat.
Proof.
  unfold dict_get, emotion_to_mood_tags. cbn [dict_find].
  repeat match goal with
         | |- context [String.eqb ?a dominant_emotion] =>
             destruct (String.eqb a dominant_emotion); [cbn; lia|]
         end.
  cbn. lia.
Qed.

Lemma matching_tags_bound (tags target : list string) :
  (size (list_to_set tags ∩ list_to_set target : gset string) <= List.length target)%nat.
Proof.
  transitivity (size (list_to_set target : gset string)).
  - apply subseteq_size, intersection_subseteq_r.
  - induction target as [|t target IH]; cbn [list_to_set List.length].
    + now rewrite size_empty.
    + rewrite size_union_alt, size_singleton.
      assert (size (list_to_set target ∖ {[t]} : gset string)
              <= size (list_to_set target : gset string))%nat
        by (apply subseteq_size, subseteq_difference_l; reflexivity).
      lia.
Qed.

(** X17.  With the tag table of the recommender and track valence and
    energy between 0 and 1, the score of a track lies between 0 and 2 for
    every dominant emotion: at most three target tags at 0.5 each and an
    audio term of at most 0.5. *)
Theorem track_score_bounds (dominant_emotion : string) (track_id : string)
        (track_data : Track) :
  0 <= valence (audio_features track_data) <= 1 ->
  0 <= energy (audio_features track_data) <= 1 ->
  let target_mood_tags := dict_get emotion_to_mood_tags dominant_emotion ["neutral"] in
  0 <= score (score_track dominant_emotion target_mood_tags track_id track_data) <= 2.
Proof.
  intros Hv He. cbv zeta. unfold score_track. cbn [score].
  pose proof (matching_tags_bound (mood_tags track_data)
                (dict_get emotion_to_mood_tags dominant_emotion ["neutral"])) as Hm.
  pose proof (target_tags_at_most_three dominant_emotion) as H3.
  pose proof (len_nonneg (list_to_set (mood_tags track_data)
                ∩ list_to_set (dict_get emotion_to_mood_tags dominant_emotion ["neutral"])))
    as Hlen.
  assert (Hle : len (list_to_set (mood_tags track_data)
                  ∩ list_to_set (dict_get emotion_to_mood_tags dominant_emotion ["neutral"]))
                <= 3).
  { unfold len. change 3 with (inject_Z 3). rewrite <- Zle_Qle. lia. }
  generalize dependent (len (list_to_set (mood_tags track_data)
     ∩ list_to_set (dict_get emotion_to_mood_tags dominant_emotion ["neutral"]))).
  intros n Hn0 Hn3.
  destruct (String.eqb dominant_emotion "joy");
    [|destruct (String.eqb dominant_emotion "sadness")]; lra.
Qed.

Lemma track_score_bounds_witness :
  0 <= score (score_track "joy" (dict_get emotion_to_mood_tags "joy" ["neutral"])
                          "sample_track_2" sample_track_2) <= 2.
Proof.
  apply (track_score_bounds "joy" "sample_track_2" sample_track_2);
    split; vm_compute; discriminate.
Defined.

(** X18.  The recommendation handler answers 200 exactly when the catalog
    and the embeddings are both loaded and the mood dict is not empty,
    whatever the limit; in every other case the status is 500.  In
    particular a request sent before start-up is not answered with 503. *)
Theorem recommend_music_status (music_features : option (dict Track))
        (music_embeddings : option (list (list Q) * list string))
        (request : MusicRecommendationRequest) :
  (music_features <> None /\ music_embeddings <> None
   /\ request_mood_emotions request <> [] ->
   exists recommendations,
     recommend_music music_features music_embeddings request = Http200 recommendations)
  /\ (music_features = None \/ music_embeddings = None
      \/ request_mood_emotions request = [] ->
      recommend_music music_features music_embeddings request = HttpError 500).
Proof.
  split.
  - intros (Hmf & Hme & Hmood).
    destruct music_features as [catalog|]; [|congruence].
    destruct music_embeddings as [embeddings|]; [|congruence].
    destruct (recommendations_total catalog _ (request_limit request) Hmood)
      as (k & _ & Hrec).
    eexists. unfold recommend_music. now rewrite Hrec.
  - intros [->|[->|Hmood]].
    + reflexivity.
    + now destruct music_features.
    + destruct music_features as [catalog|]; [|reflexivity].
      destruct music_embeddings as [embeddings|]; [|reflexivity].
      unfold recommend_music, get_mood_based_recommendations. now rewrite Hmood.
Qed.

Lemma recommend_music_status_witness :
  (exists recommendations,
      recommend_music (Some load_music_features) (Some loaded_embeddings)
                      (request_with_limit 1)
      = Http200 recommendations)
  /\ recommend_music (Some load_music_features) None (request_with_limit 1)
     = HttpError 500.
Proof.
  split.
  - apply (recommend_music_status (Some load_music_features) (Some loaded_embeddings)
                                  (request_with_limit 1)).
    repeat split; discriminate.
  - apply (recommend_music_status (Some load_music_features) None
                                  (request_with_limit 1)).
    right. now left.
Defined.

(** ** Embeddings *)

Lemma compute_music_embeddings_acc (features : dict Track)
      (rows : list (list Q)) (ids : list string) :
  List.fold_left
    (fun acc entry =>
       (fst acc ++ [[tempo (audio_features (snd entry)) / 200;
                     valence (audio_features (snd entry));
                     energy (audio_features (snd entry));
                     danceability (audio_features (snd entry))]],
        snd acc ++ [fst entry]))
    features (rows, ids)
  = (rows ++ List.map (fun entry =>
                         [tempo (audio_features (snd entry)) / 200;
                          valence (audio_features (snd entry));
                          energy (audio_features (snd entry));
                          danceability (audio_features (snd entry))]) features,
     ids ++ dict_keys features).
Proof.
  revert rows ids. induction features as [|e features IH]; intros rows ids.
  - cbn. now rewrite !app_nil_r.
  - cbn [List.fold_left List.map dict_keys fst snd]. rewrite IH.
    unfold dict_keys. now rewrite <- !app_assoc.
Qed.

(** X19.  The embedding matrix has one row of four components per catalog
    entry, in catalog order, and the id list is the key list of the
    catalog: row [i] belongs to id [i]. *)
Theorem embeddings_aligned (features : dict Track) :
  let (embeddings, track_ids) := compute_music_embeddings features in
  track_ids = dict_keys features
  /\ List.length embeddings = List.length track_ids
  /\ Forall (fun row => List.length row = 4%nat) embeddings
  /\ forall (i : nat) (track_id : string) (track_data : Track),
      List.nth_error features i = Some (track_id, track_data) ->
      List.nth_error track_ids i = Some track_id
      /\ List.nth_error embeddings i
         = Some [tempo (audio_features track_data) / 200;
                 valence (audio_features track_data);
                 energy (audio_features track_data);
                 danceability (audio_features track_data)].
Proof.
  unfold compute_music_embeddings. cbv zeta.
  rewrite compute_music_embeddings_acc. cbn [app].
  split; [reflexivity|]. split.
  - unfold dict_keys. now rewrite !List.length_map.
  - split.
    + rewrite List.Forall_forall. intros row Hrow.
      apply List.in_map_iff in Hrow as (e & <- & _). reflexivity.
    + intros i tid t Hnth. unfold dict_keys.
      rewrite !List.nth_error_map, Hnth. split; reflexivity.
Qed.
